(** * Anomaly detection engine of CloudWalk Operations Intelligence

    A shallow embedding of [src/alerts.py] (class [AnomalyDetector]) and of
    the part of [src/database.py] it calls, together with the properties of
    the rolling Z-score monitor: rolling statistics, classification, message
    rendering, orchestration and ranking.  The detector is verified against
    any [db] object: the frames that its queries return and the products
    that it lists are what the statements quantify over, and SQLite and
    pandas, which produce them, are not part of the embedding.  The database
    object with its cached connection, and the callers of the detector in
    [app.py] (the counts and the slice of the sidebar, the abbreviated
    amounts), follow.

    Numbers.  The program computes with IEEE doubles (NumPy [float64]).  The
    embedding keeps what the control flow of the detector depends on: a value
    is either an exact rational or NaN, arithmetic propagates NaN, and every
    comparison with NaN is false.  Rounding and the infinities are left out;
    a division by zero, which would produce them, is an error of the
    embedding, and the theorems show where the code never reaches it.  The
    square root used by the rolling standard deviation is a parameter of the
    development. *)

From Stdlib Require Import String Ascii DecimalString.
From Stdlib Require Import Bool Arith ZArith QArith Qabs Lia Lqa.
From Stdlib Require Import List Permutation Sorted.
Import ListNotations.

Local Open Scope string_scope.
Local Open Scope list_scope.
Local Open Scope nat_scope.

Set Implicit Arguments.

(** ** Errors and results *)

(** The exceptions that the embedded code can raise. *)
Inductive exn : Type :=
| IndexError                      (* [df.iloc[-1]] on an empty frame *)
| KeyError                        (* a missing dictionary key *)
| ValueError                      (* pandas: window must be an integer 0 or greater *)
| ZeroDivisionError               (* a division whose divisor is zero *)
| DatabaseError (msg : string).   (* what [Database.execute_query] re-raises *)

Inductive result (A : Type) : Type :=
| Ok (a : A)
| Err (e : exn).

Arguments Ok {A} a.
Arguments Err {A} e.

Definition bind {A B : Type} (r : result A) (k : A -> result B) : result B :=
  match r with
  | Ok a => k a
  | Err e => Err e
  end.

Notation "x <- r ;; k" := (bind r (fun x => k))
  (at level 61, r at next level, right associativity).

Definition succeeds {A : Type} (r : result A) : Prop :=
  exists a, r = Ok a.

(** [[f(x) for x in xs]] where [f] may raise: the first exception aborts. *)
Fixpoint mapM {A B : Type} (f : A -> result B) (xs : list A) : result (list B) :=
  match xs with
  | [] => Ok []
  | x :: rest =>
      y <- f x ;;
      ys <- mapM f rest ;;
      Ok (y :: ys)
  end.

(** ** Floating-point values *)

Inductive float : Type :=
| Num (q : Q)
| NaN.

Definition is_nan (x : float) : bool :=
  match x with
  | NaN => true
  | Num _ => false
  end.

(** [x == 0], false on NaN. *)
Definition is_zero (x : float) : bool :=
  match x with
  | Num q => Qeq_bool q 0
  | NaN => false
  end.

(** Truth value of a float in a condition: false exactly for zero. *)
Definition truthy (x : float) : bool := negb (is_zero x).

Definition fsub (x y : float) : float :=
  match x, y with
  | Num a, Num b => Num (a - b)
  | _, _ => NaN
  end.

Definition fmul (x y : float) : float :=
  match x, y with
  | Num a, Num b => Num (a * b)
  | _, _ => NaN
  end.

Definition fdiv (x y : float) : result float :=
  if is_zero y then Err ZeroDivisionError
  else match x, y with
       | Num a, Num b => Ok (Num (a / b))
       | _, _ => Ok NaN
       end.

Definition fabs (x : float) : float :=
  match x with
  | Num a => Num (Qabs a)
  | NaN => NaN
  end.

(** [x >= y] and [x < y]; both false as soon as one side is NaN. *)
Definition fgeb (x y : float) : bool :=
  match x, y with
  | Num a, Num b => Qle_bool b a
  | _, _ => false
  end.

Definition fltb (x y : float) : bool :=
  match x, y with
  | Num a, Num b => negb (Qle_bool b a)
  | _, _ => false
  end.

(** The same comparison as a proposition, for statements. *)
Definition fge (x y : float) : Prop :=
  match x, y with
  | Num a, Num b => (b <= a)%Q
  | _, _ => False
  end.

(** Equality of values: NaN only matches NaN, numbers up to [Qeq]. *)
Definition feq (x y : float) : Prop :=
  match x, y with
  | Num a, Num b => (a == b)%Q
  | NaN, NaN => True
  | _, _ => False
  end.


(** ** Sorting

    [list.sort(key=...)] is stable: elements with equal keys keep their
    relative order.  The embedding is the stable insertion sort; it is also
    the model of [DataFrame.sort_values] (whose default algorithm is not
    stable: no statement below depends on the order of rows that share a
    day, and the rows of a [GROUP BY day] result never do). *)

Section Sort.
Variable A : Type.
Variable key : A -> Z.

Fixpoint insert_by (x : A) (l : list A) : list A :=
  match l with
  | [] => [x]
  | y :: rest =>
      if (key x <=? key y)%Z then x :: y :: rest
      else y :: insert_by x rest
  end.

Fixpoint sort_by (l : list A) : list A :=
  match l with
  | [] => []
  | x :: rest => insert_by x (sort_by rest)
  end.
End Sort.

(** ** Frames *)

(** One row of the result of a daily aggregate query, [SELECT day, SUM(..)
    .. GROUP BY day]: the day (its ordinal number; the code only orders
    days) and the aggregated value. *)
Record Row : Type := {
  day : Z;
  value : float
}.

Definition DataFrame : Type := list Row.

(** A row after [df['rolling_mean'] = ..] and [df['rolling_std'] = ..]. *)
Record StatRow : Type := {
  row : Row;
  rolling_mean : float;
  rolling_std : float
}.

Definition sort_values (df : DataFrame) : DataFrame := sort_by day df.

(** [l.iloc[i]] (also [l[i]]): negative positions count from the end. *)
Definition iloc {A : Type} (l : list A) (i : Z) : result A :=
  let n := Z.of_nat (length l) in
  let j := if (i <? 0)%Z then (n + i)%Z else i in
  if ((0 <=? j) && (j <? n))%Z
  then match nth_error l (Z.to_nat j) with
       | Some a => Ok a
       | None => Err IndexError
       end
  else Err IndexError.

(** ** Rolling statistics (pandas [Series.rolling(window=w)])

    With an integer window and no [min_periods] argument, pandas sets
    [min_periods] to the window size.  The window of position [i] holds the
    observations at positions [i-w+1 .. i]; NaN entries are not counted.
    The mean is defined when the number of observations reaches
    [min_periods] and is positive, the sample variance ([ddof = 1]) when it
    reaches [min_periods] and exceeds [ddof]; otherwise the entry is NaN. *)

Fixpoint Qsum (l : list Q) : Q :=
  match l with
  | [] => 0%Q
  | x :: rest => (x + Qsum rest)%Q
  end.

Fixpoint observations (l : list float) : list Q :=
  match l with
  | [] => []
  | Num q :: rest => q :: observations rest
  | NaN :: rest => observations rest
  end.

Definition window_at (w : nat) (xs : list float) (i : nat) : list float :=
  skipn (i + 1 - w) (firstn (i + 1) xs).

Definition Qmean (obs : list Q) : Q :=
  (Qsum obs / inject_Z (Z.of_nat (length obs)))%Q.

Definition Qvar (obs : list Q) : Q :=
  let m := Qmean obs in
  (Qsum (map (fun x => (x - m) * (x - m)) obs)
   / inject_Z (Z.of_nat (length obs - 1)))%Q.

Definition mean_of (minp : nat) (win : list float) : float :=
  let obs := observations win in
  let nobs := length obs in
  if (minp <=? nobs) && (0 <? nobs) then Num (Qmean obs) else NaN.

Section Std.
(** The square root of the platform, applied to a variance. *)
Variable sqrt : Q -> Q.

Definition std_of (minp : nat) (win : list float) : float :=
  let obs := observations win in
  let nobs := length obs in
  if (minp <=? nobs) && (1 <? nobs) then Num (sqrt (Qvar obs)) else NaN.
End Std.

(** [xs.rolling(window=w).stat()], for [stat] one of the two above. *)
Definition rolling (w : Z) (stat : nat -> list float -> float)
    (xs : list float) : result (list float) :=
  if (w <? 0)%Z then Err ValueError
  else
    let n := Z.to_nat w in
    Ok (map (fun i => stat n (window_at n xs i)) (seq 0 (length xs))).

(** Column assignment: the statistics are aligned with the rows. *)
Fixpoint assign (df : DataFrame) (means stds : list float) : list StatRow :=
  match df, means, stds with
  | r :: df', m :: means', s :: stds' =>
      {| row := r; rolling_mean := m; rolling_std := s |}
      :: assign df' means' stds'
  | _, _, _ => []
  end.

(** ** Text and number formatting *)

Notation "s +++ t" := (String.append s t) (at level 60, right associativity).

(** [str.upper()], on ASCII text. *)
Definition upper_ascii (c : ascii) : ascii :=
  let n := nat_of_ascii c in
  if (97 <=? n) && (n <=? 122) then ascii_of_nat (n - 32) else c.

Fixpoint upper (s : string) : string :=
  match s with
  | EmptyString => EmptyString
  | String c rest => String (upper_ascii c) (upper rest)
  end.

(** Nearest integer of a non-negative rational, ties to the even one. *)
Definition round_half_even (q : Q) : Z :=
  let n := Qnum q in
  let d := Zpos (Qden q) in
  let k := (n / d)%Z in
  match (2 * (n mod d) ?= d)%Z with
  | Lt => k
  | Gt => (k + 1)%Z
  | Eq => if Z.even k then k else (k + 1)%Z
  end.

Definition digits (n : Z) : string :=
  NilZero.string_of_uint (N.to_uint (Z.to_N n)).

(** Thousands separators, on the reversed digits. *)
Fixpoint commas_rev (l : list ascii) (k : nat) : list ascii :=
  match l with
  | [] => []
  | c :: rest =>
      match k with
      | 0 => ","%char :: c :: commas_rev rest 2
      | S k' => c :: commas_rev rest k'
      end
  end.

Definition commas (s : string) : string :=
  string_of_list_ascii
    (rev (commas_rev (rev (list_ascii_of_string s)) 3)).

Fixpoint zeros (n : nat) : string :=
  match n with
  | 0 => EmptyString
  | S n' => String "0"%char (zeros n')
  end.

Definition pad_left (width : nat) (s : string) : string :=
  zeros (width - String.length s) +++ s.

(** The format specifications [:.<dec>f] and, with [grouping], [:,.<dec>f]. *)
Definition format_f (grouping : bool) (dec : nat) (x : float) : string :=
  match x with
  | NaN => "nan"
  | Num q =>
      let scale := (10 ^ Z.of_nat dec)%Z in
      let n := round_half_even (Qabs q * inject_Z scale) in
      let int_part := digits (n / scale) in
      let sign := if Qle_bool 0 q then "" else "-" in
      sign
      +++ (if grouping then commas int_part else int_part)
      +++ (if dec =? 0 then "" else "." +++ pad_left dec (digits (n mod scale)))
  end.

(** ** The data source seen by the detector *)

(** The aggregate queries that [alerts.py] sends to [execute_query]. *)
Inductive Query : Type :=
| DailyTpv
    (* SELECT day, SUM(amount_transacted) as tpv FROM transactions
       GROUP BY day ORDER BY day *)
| DailyTxns
    (* SELECT day, SUM(quantity_transactions) as txns FROM transactions
       GROUP BY day ORDER BY day *)
| DailyTpvOf (product : string).
    (* SELECT day, SUM(amount_transacted) as tpv FROM transactions
       WHERE product = '{product}' GROUP BY day ORDER BY day *)

(** The [db] object handed to the detector: each call returns its result or
    raises. *)
Record Database : Type := {
  execute_query : Query -> result DataFrame;
  get_unique_values : string -> result (list string)
}.

(** ** Alerts *)

Inductive AlertSeverity : Type :=
| NORMAL
| WARNING
| CRITICAL.

(** [severity.value] *)
Definition severity_value (s : AlertSeverity) : string :=
  match s with
  | NORMAL => "normal"
  | WARNING => "warning"
  | CRITICAL => "critical"
  end.

(** The order of the severity tiers. *)
Definition tier (s : AlertSeverity) : nat :=
  match s with
  | NORMAL => 0
  | WARNING => 1
  | CRITICAL => 2
  end.

Record Alert : Type := {
  metric : string;
  dimension : string;
  current_value : float;
  expected_value : float;
  z_score : float;
  severity : AlertSeverity;
  change_pct : float;
  message : string
}.

Record AnomalyDetector : Type := {
  db : Database;
  window : Z;
  warning_threshold : float;
  critical_threshold : float
}.

(** [AnomalyDetector.__init__].  An omitted argument is [None].  Without a
    [db] the constructor opens the default database and loads the CSV file;
    [default_db] is the outcome of that. *)
Definition __init__ (default_db : result Database)
    (db : option Database) (window : option Z)
    (warning_threshold critical_threshold : option float)
  : result AnomalyDetector :=
  d <- match db with
       | None => default_db
       | Some d => Ok d
       end ;;
  Ok {| db := d;
        window := match window with Some w => w | None => 30%Z end;
        warning_threshold :=
          match warning_threshold with Some t => t | None => Num 2 end;
        critical_threshold :=
          match critical_threshold with Some t => t | None => Num 3 end |}.

Definition _calculate_z_score (self : AnomalyDetector)
    (current mean std : float) : result float :=
  if is_zero std || is_nan std then Ok (Num 0)
  else fdiv (fsub current mean) std.

Definition _get_severity (self : AnomalyDetector) (z_score : float)
  : AlertSeverity :=
  let abs_z := fabs z_score in
  if fgeb abs_z (critical_threshold self) then CRITICAL
  else if fgeb abs_z (warning_threshold self) then WARNING
  else NORMAL.

Definition _format_message (self : AnomalyDetector)
    (metric dimension : string) (z_score change_pct current expected : float)
  : string :=
  let direction := if fltb z_score (Num 0) then "dropped" else "spiked" in
  let metric_label := upper metric in
  let dim_text :=
    if String.eqb dimension "total" then "Total " +++ metric_label
    else metric_label +++ " for " +++ upper dimension in
  dim_text +++ " " +++ direction +++ " "
  +++ format_f false 1 (fabs change_pct) +++ "% "
  +++ "(Z-score: " +++ format_f false 2 z_score +++ "). "
  +++ "Current: R$ " +++ format_f true 2 current
  +++ ", Expected: R$ " +++ format_f true 2 expected.

(** The expression [((current - expected) / expected) * 100 if expected
    else 0] of the three checks. *)
Definition change_pct_of (current expected : float) : result float :=
  if truthy expected
  then q <- fdiv (fsub current expected) expected ;; Ok (fmul q (Num 100))
  else Ok (Num 0).

Section Checks.
Variable sqrt : Q -> Q.

(** [df.iloc[-2][col] if len(df) > 1 else latest[col]] *)
Definition previous (df : list StatRow) (latest : StatRow)
    (col : StatRow -> float) : result float :=
  if 1 <? length df
  then r <- iloc df (-2) ;; Ok (col r)
  else Ok (col latest).

Definition check_total_tpv (self : AnomalyDetector) : result Alert :=
  df <- execute_query (db self) DailyTpv ;;
  let df := sort_values df in
  means <- rolling (window self) mean_of (map value df) ;;
  stds <- rolling (window self) (std_of sqrt) (map value df) ;;
  let df := assign df means stds in
  latest <- iloc df (-1) ;;
  prev_mean <- previous df latest rolling_mean ;;
  prev_std <- previous df latest rolling_std ;;
  let current := value (row latest) in
  let expected := prev_mean in
  z_score <- _calculate_z_score self current expected prev_std ;;
  let severity := _get_severity self z_score in
  change_pct <- change_pct_of current expected ;;
  Ok {| metric := "tpv";
        dimension := "total";
        current_value := current;
        expected_value := expected;
        z_score := z_score;
        severity := severity;
        change_pct := change_pct;
        message := _format_message self "tpv" "total" z_score change_pct
                     current expected |}.

(** The body of the loop of [check_tpv_by_product]. *)
Definition check_product (self : AnomalyDetector) (product : string)
  : result Alert :=
  df <- execute_query (db self) (DailyTpvOf product) ;;
  let df := sort_values df in
  means <- rolling (window self) mean_of (map value df) ;;
  stds <- rolling (window self) (std_of sqrt) (map value df) ;;
  let df := assign df means stds in
  latest <- iloc df (-1) ;;
  prev_mean <- previous df latest rolling_mean ;;
  prev_std <- previous df latest rolling_std ;;
  let current := value (row latest) in
  let expected := prev_mean in
  z_score <- _calculate_z_score self current expected prev_std ;;
  let severity := _get_severity self z_score in
  change_pct <- change_pct_of current expected ;;
  Ok {| metric := "tpv";
        dimension := product;
        current_value := current;
        expected_value := expected;
        z_score := z_score;
        severity := severity;
        change_pct := change_pct;
        message := _format_message self "tpv" product z_score change_pct
                     current expected |}.

Definition check_tpv_by_product (self : AnomalyDetector)
  : result (list Alert) :=
  products <- get_unique_values (db self) "product" ;;
  mapM (check_product self) products.

Definition check_transactions (self : AnomalyDetector) : result Alert :=
  df <- execute_query (db self) DailyTxns ;;
  let df := sort_values df in
  means <- rolling (window self) mean_of (map value df) ;;
  stds <- rolling (window self) (std_of sqrt) (map value df) ;;
  let df := assign df means stds in
  latest <- iloc df (-1) ;;
  prev_mean <- previous df latest rolling_mean ;;
  prev_std <- previous df latest rolling_std ;;
  let current := value (row latest) in
  let expected := prev_mean in
  z_score <- _calculate_z_score self current expected prev_std ;;
  let severity := _get_severity self z_score in
  change_pct <- change_pct_of current expected ;;
  let message :=
    "Transaction count "
    +++ (if fltb z_score (Num 0) then "dropped" else "spiked") +++ " "
    +++ format_f false 1 (fabs change_pct) +++ "% "
    +++ "(Z-score: " +++ format_f false 2 z_score +++ "). "
    +++ "Current: " +++ format_f true 0 current
    +++ ", Expected: " +++ format_f true 0 expected in
  Ok {| metric := "transactions";
        dimension := "total";
        current_value := current;
        expected_value := expected;
        z_score := z_score;
        severity := severity;
        change_pct := change_pct;
        message := message |}.
End Checks.

(** ** Orchestration *)

(** [results["summary"]] *)
Record Summary : Type := {
  total_alerts : nat;
  critical : nat;
  warning : nat;
  normal : nat
}.

(** The dictionary returned by [run_all_checks]. *)
Record Results : Type := {
  total_tpv : Alert;
  transactions : Alert;
  by_product : list Alert;
  summary : Summary
}.

(** One turn of the loop that counts the alerts by severity. *)
Definition count_alert (s : Summary) (alert : Alert) : Summary :=
  let s := {| total_alerts := total_alerts s + 1;
              critical := critical s;
              warning := warning s;
              normal := normal s |} in
  match severity alert with
  | CRITICAL => {| total_alerts := total_alerts s;
                   critical := critical s + 1;
                   warning := warning s;
                   normal := normal s |}
  | WARNING => {| total_alerts := total_alerts s;
                  critical := critical s;
                  warning := warning s + 1;
                  normal := normal s |}
  | NORMAL => {| total_alerts := total_alerts s;
                 critical := critical s;
                 warning := warning s;
                 normal := normal s + 1 |}
  end.

(** [[results["total_tpv"], results["transactions"]] + results["by_product"]] *)
Definition all_alerts (results : Results) : list Alert :=
  [total_tpv results; transactions results] ++ by_product results.

(** A record of the list returned by [get_alerts_for_display]. *)
Record DisplayAlert : Type := {
  display_metric : string;
  display_dimension : string;
  display_severity : string;
  display_change_pct : float;
  display_z_score : float;
  display_message : string;
  display_icon : string;
  display_color : string
}.

Definition _get_icon (severity : AlertSeverity) : string :=
  match severity with
  | CRITICAL => "[!!!]"
  | WARNING => "[!]"
  | NORMAL => "[OK]"
  end.

Definition _get_color (severity : AlertSeverity) : string :=
  match severity with
  | CRITICAL => "red"
  | WARNING => "orange"
  | NORMAL => "green"
  end.

(** [severity_order[name]], a dictionary with three keys. *)
Definition severity_order (name : string) : result Z :=
  if String.eqb name "critical" then Ok 0%Z
  else if String.eqb name "warning" then Ok 1%Z
  else if String.eqb name "normal" then Ok 2%Z
  else Err KeyError.

(** [l.sort(key=key)]: the keys are computed first, one per element. *)
Definition sort_with_key {A : Type} (key : A -> result Z) (l : list A)
  : result (list A) :=
  keys <- mapM key l ;;
  Ok (map snd (sort_by fst (combine keys l))).

Definition to_display (alert : Alert) : DisplayAlert :=
  {| display_metric := metric alert;
     display_dimension := dimension alert;
     display_severity := severity_value (severity alert);
     display_change_pct := change_pct alert;
     display_z_score := z_score alert;
     display_message := message alert;
     display_icon := _get_icon (severity alert);
     display_color := _get_color (severity alert) |}.

Section Orchestrator.
Variable sqrt : Q -> Q.

Definition run_all_checks (self : AnomalyDetector) : result Results :=
  tpv <- check_total_tpv sqrt self ;;
  txns <- check_transactions sqrt self ;;
  products <- check_tpv_by_product sqrt self ;;
  let results := {| total_tpv := tpv;
                    transactions := txns;
                    by_product := products;
                    summary := {| total_alerts := 0; critical := 0;
                                  warning := 0; normal := 0 |} |} in
  Ok {| total_tpv := total_tpv results;
        transactions := transactions results;
        by_product := by_product results;
        summary := fold_left count_alert (all_alerts results)
                     (summary results) |}.

Definition get_alerts_for_display (self : AnomalyDetector)
  : result (list DisplayAlert) :=
  results <- run_all_checks self ;;
  let display_alerts := map to_display (all_alerts results) in
  sort_with_key (fun x => severity_order (display_severity x))
    display_alerts.
End Orchestrator.

(** ** Auxiliary definitions of the statements *)

(** The part that the three checks share: from the fetched frame to the
    current value, the expected value, the Z-score and the change. *)
Definition evaluate (sqrt : Q -> Q) (self : AnomalyDetector) (df : DataFrame)
  : result (float * float * float * float) :=
  let df := sort_values df in
  means <- rolling (window self) mean_of (map value df) ;;
  stds <- rolling (window self) (std_of sqrt) (map value df) ;;
  let df := assign df means stds in
  latest <- iloc df (-1) ;;
  prev_mean <- previous df latest rolling_mean ;;
  prev_std <- previous df latest rolling_std ;;
  let current := value (row latest) in
  let expected := prev_mean in
  z_score <- _calculate_z_score self current expected prev_std ;;
  change_pct <- change_pct_of current expected ;;
  Ok (current, expected, z_score, change_pct).

(** The alert that a TPV check builds from these four values. *)
Definition tpv_alert (self : AnomalyDetector) (dimension : string)
    (e : float * float * float * float) : Alert :=
  let '(current, expected, z_score, change_pct) := e in
  {| metric := "tpv";
     dimension := dimension;
     current_value := current;
     expected_value := expected;
     z_score := z_score;
     severity := _get_severity self z_score;
     change_pct := change_pct;
     message := _format_message self "tpv" dimension z_score change_pct
                  current expected |}.

(** The position whose statistics a check reads, in a frame of [n] rows:
    the second to last, or the only one. *)
Definition reading_position (n : nat) : nat :=
  if 1 <? n then n - 2 else n - 1.

(** The statistics that a check reads on the frame [df]. *)
Definition expected_of (self : AnomalyDetector) (df : DataFrame) : float :=
  let w := Z.to_nat (window self) in
  let xs := map value (sort_values df) in
  mean_of w (window_at w xs (reading_position (length df))).

Definition std_read_of (sqrt : Q -> Q) (self : AnomalyDetector)
    (df : DataFrame) : float :=
  let w := Z.to_nat (window self) in
  let xs := map value (sort_values df) in
  std_of sqrt w (window_at w xs (reading_position (length df))).

(** The alert that the transaction check builds from the four values. *)
Definition txns_alert (self : AnomalyDetector)
    (e : float * float * float * float) : Alert :=
  let '(current, expected, z_score, change_pct) := e in
  {| metric := "transactions";
     dimension := "total";
     current_value := current;
     expected_value := expected;
     z_score := z_score;
     severity := _get_severity self z_score;
     change_pct := change_pct;
     message :=
       "Transaction count "
       +++ (if fltb z_score (Num 0) then "dropped" else "spiked") +++ " "
       +++ format_f false 1 (fabs change_pct) +++ "% "
       +++ "(Z-score: " +++ format_f false 2 z_score +++ "). "
       +++ "Current: " +++ format_f true 0 current
       +++ ", Expected: " +++ format_f true 0 expected |}.

(** The check that sends the query [q], and the alert it builds. *)
Definition check_of (sqrt : Q -> Q) (self : AnomalyDetector) (q : Query)
  : result Alert :=
  match q with
  | DailyTpv => check_total_tpv sqrt self
  | DailyTxns => check_transactions sqrt self
  | DailyTpvOf product => check_product sqrt self product
  end.

Definition alert_of (self : AnomalyDetector) (q : Query)
    (e : float * float * float * float) : Alert :=
  match q with
  | DailyTpv => tpv_alert self "total" e
  | DailyTxns => txns_alert self e
  | DailyTpvOf product => tpv_alert self product e
  end.

(** A threshold that a Z-score of zero does not reach. *)
Definition above_zero (t : float) : Prop := ~ fge (Num 0) t.

(** Following the words of the specification (sections 3 and 4.2): the
    statistics "computed over however many observations are available (a
    growing window)", that is, defined as soon as one observation is there
    (two for the sample standard deviation). *)
Definition growing_rolling (w : Z) (stat : nat -> list float -> float)
    (xs : list float) : list float :=
  map (fun i => stat 1 (window_at (Z.to_nat w) xs i)) (seq 0 (length xs)).

(** The rank of a display record in the ranking law: critical 0, warning 1,
    normal 2 (and 3 for a string that names no severity). *)
Definition severity_rank (x : DisplayAlert) : Z :=
  match severity_order (display_severity x) with
  | Ok k => k
  | Err _ => 3%Z
  end.


(** The summary before the counting loop. *)
Definition empty_summary : Summary :=
  {| total_alerts := 0; critical := 0; warning := 0; normal := 0 |}.

(** How many alerts of a list have the severity [s]. *)
Definition count_severity (s : AlertSeverity) (l : list Alert) : nat :=
  length (filter (fun a => tier (severity a) =? tier s) l).

(** Following the words of the specification (section 4.4, step 5): the
    message "<label> <dropped|spiked> <|change_pct| to one decimal>%
    (Z-score: <z_score to two decimals>). Current: <currency>, Expected:
    <currency>", the label being "Total <METRIC>" for the dimension "total"
    and "<METRIC> for <DIMENSION>" otherwise.  Currency is the amount in
    reais, with thousands separators and two decimals. *)
Definition spec_direction (z : float) : string :=
  if fltb z (Num 0) then "dropped" else "spiked".

Definition spec_label (metric dimension : string) : string :=
  if String.eqb dimension "total" then "Total " +++ upper metric
  else upper metric +++ " for " +++ upper dimension.

Definition currency (x : float) : string := "R$ " +++ format_f true 2 x.

Definition spec_message (a : Alert) : string :=
  spec_label (metric a) (dimension a) +++ " "
  +++ spec_direction (z_score a) +++ " "
  +++ format_f false 1 (fabs (change_pct a))
  +++ "% (Z-score: " +++ format_f false 2 (z_score a)
  +++ "). Current: " +++ currency (current_value a)
  +++ ", Expected: " +++ currency (expected_value a).

(** The message of the transaction check: its own label, and the two
    values as whole numbers without a currency sign. *)
Definition transaction_message (a : Alert) : string :=
  "Transaction count " +++ spec_direction (z_score a) +++ " "
  +++ format_f false 1 (fabs (change_pct a))
  +++ "% (Z-score: " +++ format_f false 2 (z_score a)
  +++ "). Current: " +++ format_f true 0 (current_value a)
  +++ ", Expected: " +++ format_f true 0 (expected_value a).

(** A square root to run examples with: six decimals, rounded down. *)
Definition sqrt_approx (q : Q) : Q :=
  Qmake (Z.sqrt (Qnum q * 10 ^ 12 / Zpos (Qden q))) (10 ^ 6).

(** A frame whose rows are in the order of their days, as the frames of
    [ORDER BY day] are. *)
Definition chronological (df : DataFrame) : Prop :=
  Sorted (fun a b => (day a <= day b)%Z) df.

(** ** The callers of the detector *)

(** [check_anomalies()]: a detector with every default, then the display
    list.  [default_db] is the outcome of setting up the default database,
    as in [__init__]. *)
Definition check_anomalies (sqrt : Q -> Q) (default_db : result Database)
  : result (list DisplayAlert) :=
  detector <- __init__ default_db None None None None ;;
  get_alerts_for_display sqrt detector.

(** [sum(1 for a in alerts if a['severity'] == name)], the counts of the
    sidebar ([render_sidebar] in [app.py]). *)
Definition sidebar_count (name : string) (alerts : list DisplayAlert) : nat :=
  length (filter (fun a => String.eqb (display_severity a) name) alerts).


(** The two methods of the [db] of the detector, under names that stay
    available next to those of the database object below. *)
Definition table_execute_query (d : Database) : Query -> result DataFrame :=
  execute_query d.

Definition table_get_unique_values (d : Database)
  : string -> result (list string) :=
  get_unique_values d.

(** ** The database object ([class Database]) and its file

    The object caches one connection; the table lives in the database
    file.  A connection is a handle, numbered in the order of the calls to
    [sqlite3.connect]; [live_connections] are the handles opened and not yet
    closed; [stored] is the table [transactions] of the file, or [None] when
    the file has no such table.  A method takes the state and returns the
    new state with its result.

    What lies outside the program is a parameter: the content of a table
    ([Table]), what SQLite answers on it ([engine]), what the write of
    [load_csv_to_db] ([DataFrame.to_sql], the index, the commit) leaves in
    the file together with the exception it raises, if any ([to_sql]), and
    [len(df)] ([len]). *)

Module Db.

(** The argument [if_exists] of [load_csv_to_db]. *)
Inductive IfExists : Type := Replace | Append | Fail.

Section Engine.
Variable Table : Type.
Variable engine : Table -> Database.
Variable to_sql :
  IfExists -> option Table -> Table -> option Table * option exn.
Variable len : Table -> nat.

Record State : Type := {
  _connection : option nat;
  connections_opened : nat;
  live_connections : list nat;
  stored : option Table
}.

(** [Database(...)] on a file with the given content. *)
Definition new (file : option Table) : State :=
  {| _connection := None;
     connections_opened := 0;
     live_connections := [];
     stored := file |}.

Definition connect (s : State) : State * nat :=
  match _connection s with
  | Some h => (s, h)
  | None =>
      let h := connections_opened s in
      ({| _connection := Some h;
          connections_opened := S h;
          live_connections := h :: live_connections s;
          stored := stored s |}, h)
  end.

Definition close (s : State) : State :=
  match _connection s with
  | Some h =>
      {| _connection := None;
         connections_opened := connections_opened s;
         live_connections := remove Nat.eq_dec h (live_connections s);
         stored := stored s |}
  | None => s
  end.

Definition write (s : State) (file : option Table) : State :=
  {| _connection := _connection s;
     connections_opened := connections_opened s;
     live_connections := live_connections s;
     stored := file |}.

(** [load_csv_to_db(if_exists)]; [csv] is the outcome of reading the CSV
    file, which comes first. *)
Definition load_csv_to_db (csv : result Table)
    (if_exists : IfExists) (s : State) : State * result nat :=
  match csv with
  | Err e => (s, Err e)
  | Ok df =>
      let (s, conn) := connect s in
      let (file, raised) := to_sql if_exists (stored s) df in
      match raised with
      | Some e => (write s file, Err e)
      | None => (write s file, Ok (len df))
      end
  end.

(** [execute_query(query)], for the queries of the detector. *)
Definition execute_query (q : Query) (s : State) : State * result DataFrame :=
  let (s, conn) := connect s in
  match stored s with
  | Some table => (s, table_execute_query (engine table) q)
  | None => (s, Err (DatabaseError "no such table: transactions"))
  end.

Definition get_unique_values (column : string) (s : State)
  : State * result (list string) :=
  let (s, conn) := connect s in
  match stored s with
  | Some table => (s, table_get_unique_values (engine table) column)
  | None => (s, Err (DatabaseError "no such table: transactions"))
  end.

(** [setup_database()] *)
Definition setup_database (file : option Table)
    (csv : result Table) : State * result nat :=
  load_csv_to_db csv Replace (new file).

(** The calls that a program can make on the object. *)
Inductive Call : Type :=
| Connect
| Close
| Load (csv : result Table) (if_exists : IfExists)
| Execute (q : Query)
| UniqueValues (column : string).

Definition step (s : State) (c : Call) : State :=
  match c with
  | Connect => fst (connect s)
  | Close => close s
  | Load csv if_exists => fst (load_csv_to_db csv if_exists s)
  | Execute q => fst (execute_query q s)
  | UniqueValues column => fst (get_unique_values column s)
  end.

Definition run (calls : list Call) (s : State) : State :=
  fold_left step calls s.

End Engine.

End Db.

(** [format_currency] and [format_number] of [app.py], which abbreviate
    the totals of the sidebar. *)
Definition format_currency (value : float) : result string :=
  if fgeb value (Num 1000000000) then
    x <- fdiv value (Num 1000000000) ;;
    Ok ("R$ " +++ format_f false 2 x +++ "B")
  else if fgeb value (Num 1000000) then
    x <- fdiv value (Num 1000000) ;;
    Ok ("R$ " +++ format_f false 2 x +++ "M")
  else if fgeb value (Num 1000) then
    x <- fdiv value (Num 1000) ;;
    Ok ("R$ " +++ format_f false 2 x +++ "K")
  else Ok ("R$ " +++ format_f false 2 value).

Definition format_number (value : float) : result string :=
  if fgeb value (Num 1000000000) then
    x <- fdiv value (Num 1000000000) ;;
    Ok (format_f false 2 x +++ "B")
  else if fgeb value (Num 1000000) then
    x <- fdiv value (Num 1000000) ;;
    Ok (format_f false 2 x +++ "M")
  else if fgeb value (Num 1000) then
    x <- fdiv value (Num 1000) ;;
    Ok (format_f false 2 x +++ "K")
  else Ok (format_f false 0 value).

(** ** Sample data *)

(** A [db] object that answers the queries of the detector from given
    frames: the daily TPV, the daily transaction counts, and the daily TPV
    of each product it lists.  A product that it does not list has no
    rows. *)
Definition answering (tpv txns : DataFrame)
    (products : list (string * DataFrame)) : Database :=
  {| execute_query := fun q =>
       match q with
       | DailyTpv => Ok tpv
       | DailyTxns => Ok txns
       | DailyTpvOf product =>
           match find (fun e => String.eqb (fst e) product) products with
           | Some e => Ok (snd e)
           | None => Ok []
           end
       end;
     get_unique_values := fun column =>
       if String.eqb column "product"
       then Ok (map fst products)
       else Err (DatabaseError "no such column") |}.

Definition point (d : Z) (x : Q) : Row := {| day := d; value := Num x |}.

(** Three days, two products. *)
Definition sample_tpv : DataFrame := [point 1 150; point 2 160; point 3 515].
Definition sample_txns : DataFrame := [point 1 7; point 2 4; point 3 9].
Definition sample_pix : DataFrame := [point 1 100; point 2 120; point 3 15].
Definition sample_pos : DataFrame := [point 1 50; point 2 40; point 3 500].

Definition sample_db : Database :=
  answering sample_tpv sample_txns
    [("pix", sample_pix); ("pos", sample_pos)].

Definition detector_on (d : Database) (w : Z) : AnomalyDetector :=
  {| db := d;
     window := w;
     warning_threshold := Num 2;
     critical_threshold := Num 3 |}.

(** A source without rows. *)
Definition empty_db : Database := answering [] [] [].

(** The single-point series [[500]]. *)
Definition single_point_db : Database :=
  answering [point 1 500] [point 1 4]
    [("pix", [point 1 500])].

(** The sample source behind a connection that fails on the query of one
    product. *)
Definition failing_db : Database :=
  {| execute_query := fun q =>
       match q with
       | DailyTpvOf product =>
           if String.eqb product "pos"
           then Err (DatabaseError "database is locked")
           else execute_query sample_db q
       | _ => execute_query sample_db q
       end;
     get_unique_values := get_unique_values sample_db |}.

Definition failing_detector : AnomalyDetector :=
  {| db := failing_db;
     window := 2;
     warning_threshold := Num 2;
     critical_threshold := Num 3 |}.

(** Two flat days and a spike. *)
Definition flat_tpv : DataFrame := [point 1 100; point 2 100; point 3 400].

Definition flat_db : Database :=
  answering flat_tpv [point 1 2; point 2 3; point 3 9] [("pix", flat_tpv)].

(** The sample source under thresholds of zero. *)
Definition zero_threshold_detector : AnomalyDetector :=
  {| db := sample_db;
     window := 30;
     warning_threshold := Num 0;
     critical_threshold := Num 0 |}.

(** * Properties *)

(** ** Results *)

Lemma bind_Ok {A B : Type} (r : result A) (k : A -> result B) (b : B) :
  bind r k = Ok b -> exists a, r = Ok a /\ k a = Ok b.
Proof.
  destruct r as [a | e]; simpl; intro H.
  - exists a. split; [reflexivity | exact H].
  - discriminate H.
Qed.

Lemma bind_Err {A B : Type} (r : result A) (k : A -> result B) (e : exn) :
  r = Err e -> bind r k = Err e.
Proof. intros ->. reflexivity. Qed.

Lemma mapM_length {A B : Type} (f : A -> result B) (xs : list A) (ys : list B) :
  mapM f xs = Ok ys -> length ys = length xs.
Proof.
  revert ys. induction xs as [| x rest IH]; simpl; intros ys H.
  - injection H as <-. reflexivity.
  - apply bind_Ok in H as (y & _ & H).
    apply bind_Ok in H as (ys' & Hrest & H).
    injection H as <-. simpl. f_equal. apply IH. exact Hrest.
Qed.

Lemma mapM_total {A B : Type} (f : A -> result B) (xs : list A) :
  (forall x, In x xs -> succeeds (f x)) -> succeeds (mapM f xs).
Proof.
  induction xs as [| x rest IH]; simpl; intros H.
  - exists []. reflexivity.
  - destruct (H x (or_introl eq_refl)) as [y Hy].
    destruct IH as [ys Hys]; [intros; apply H; right; assumption |].
    exists (y :: ys). rewrite Hy, Hys. reflexivity.
Qed.

Lemma mapM_Err {A B : Type} (f : A -> result B) (xs : list A) (x : A) :
  In x xs -> ~ succeeds (f x) -> ~ succeeds (mapM f xs).
Proof.
  induction xs as [| x' rest IH]; simpl; intros Hin Hx [ys H].
  - exact Hin.
  - apply bind_Ok in H as (y & Hy & H).
    apply bind_Ok in H as (ys' & Hrest & _).
    destruct Hin as [-> | Hin].
    + apply Hx. exists y. exact Hy.
    + apply (IH Hin Hx). exists ys'. exact Hrest.
Qed.

Lemma mapM_Forall2 {A B : Type} (f : A -> result B) (xs : list A) (ys : list B) :
  mapM f xs = Ok ys -> Forall2 (fun x y => f x = Ok y) xs ys.
Proof.
  revert ys. induction xs as [| x rest IH]; simpl; intros ys H.
  - injection H as <-. constructor.
  - apply bind_Ok in H as (y & Hy & H).
    apply bind_Ok in H as (ys' & Hrest & H).
    injection H as <-. constructor; auto.
Qed.

(** ** Comparisons of values *)

Lemma fgeb_fge (x y : float) : fgeb x y = true <-> fge x y.
Proof.
  destruct x as [a |], y as [b |]; simpl;
    try (split; [discriminate | contradiction]).
  apply Qle_bool_iff.
Qed.

Lemma fgeb_false (x y : float) : fgeb x y = false <-> ~ fge x y.
Proof.
  rewrite <- fgeb_fge. destruct (fgeb x y); split; intro H;
    try reflexivity; try discriminate; try (exfalso; apply H; reflexivity).
Qed.

Lemma is_zero_Num (q : Q) : is_zero (Num q) = true <-> (q == 0)%Q.
Proof. apply Qeq_bool_iff. Qed.

Lemma fge_trans_abs (a b : Q) (t : float) :
  (Qabs a <= Qabs b)%Q -> fge (Num (Qabs a)) t -> fge (Num (Qabs b)) t.
Proof.
  destruct t as [c |]; simpl; [| tauto].
  intros Hab Hc. apply Qle_trans with (Qabs a); assumption.
Qed.

(** ** Classification *)

Lemma get_severity_cases (self : AnomalyDetector) (z : float) :
  (fge (fabs z) (critical_threshold self) ->
   _get_severity self z = CRITICAL) /\
  (~ fge (fabs z) (critical_threshold self) ->
   fge (fabs z) (warning_threshold self) ->
   _get_severity self z = WARNING) /\
  (~ fge (fabs z) (critical_threshold self) ->
   ~ fge (fabs z) (warning_threshold self) ->
   _get_severity self z = NORMAL).
Proof.
  unfold _get_severity.
  split; [| split].
  - intro C. apply fgeb_fge in C. rewrite C. reflexivity.
  - intros C W. apply fgeb_false in C. apply fgeb_fge in W.
    rewrite C, W. reflexivity.
  - intros C W. apply fgeb_false in C. apply fgeb_false in W.
    rewrite C, W. reflexivity.
Qed.

Lemma get_severity_monotone (self : AnomalyDetector) (z1 z2 : Q) :
  (Qabs z1 <= Qabs z2)%Q ->
  tier (_get_severity self (Num z1)) <= tier (_get_severity self (Num z2)).
Proof.
  intro Hle. unfold _get_severity. simpl fabs.
  destruct (fgeb (Num (Qabs z1)) (critical_threshold self)) eqn:C1.
  - apply fgeb_fge in C1. apply (fge_trans_abs _ _ _ Hle) in C1.
    apply fgeb_fge in C1. rewrite C1. apply le_n.
  - destruct (fgeb (Num (Qabs z1)) (warning_threshold self)) eqn:W1.
    + apply fgeb_fge in W1. apply (fge_trans_abs _ _ _ Hle) in W1.
      apply fgeb_fge in W1. rewrite W1.
      destruct (fgeb (Num (Qabs z2)) (critical_threshold self)); simpl; lia.
    + simpl. lia.
Qed.

(** C2.  The severity of a Z-score is CRITICAL when its magnitude reaches
    the critical threshold, else WARNING when it reaches the warning
    threshold, else NORMAL (a NaN reaches no threshold); the thresholds of a
    detector built without them are 2.0 and 3.0; and for fixed thresholds
    with [warning_threshold <= critical_threshold] a larger magnitude never
    has a lower tier. *)
Theorem severity_classification (self : AnomalyDetector) :
  (forall z : float,
      (fge (fabs z) (critical_threshold self) ->
       _get_severity self z = CRITICAL) /\
      (~ fge (fabs z) (critical_threshold self) ->
       fge (fabs z) (warning_threshold self) ->
       _get_severity self z = WARNING) /\
      (~ fge (fabs z) (critical_threshold self) ->
       ~ fge (fabs z) (warning_threshold self) ->
       _get_severity self z = NORMAL)) /\
  (forall (dflt : result Database) (d : Database) (w : option Z),
      exists det,
        __init__ dflt (Some d) w None None = Ok det /\
        warning_threshold det = Num 2 /\ critical_threshold det = Num 3) /\
  (forall z1 z2 : Q,
      fge (critical_threshold self) (warning_threshold self) ->
      (Qabs z1 <= Qabs z2)%Q ->
      tier (_get_severity self (Num z1))
      <= tier (_get_severity self (Num z2))).
Proof.
  split; [| split].
  - intro z. apply get_severity_cases.
  - intros dflt d w. eexists. simpl. repeat split.
  - intros z1 z2 _ Hle. apply get_severity_monotone. exact Hle.
Qed.

Lemma severity_classification_witness :
  let self := detector_on sample_db 30 in
  fge (fabs (Num (-7 # 2))) (critical_threshold self) /\
  _get_severity self (Num (-7 # 2)) = CRITICAL /\
  fge (critical_threshold self) (warning_threshold self) /\
  (Qabs 1 <= Qabs (-5 # 2))%Q /\
  tier (_get_severity self (Num 1))
  <= tier (_get_severity self (Num (-5 # 2))).
Proof.
  intro self.
  assert (Hz : fge (fabs (Num (-7 # 2))) (critical_threshold self))
    by (vm_compute; discriminate).
  assert (Ht : fge (critical_threshold self) (warning_threshold self))
    by (vm_compute; discriminate).
  assert (Hle : (Qabs 1 <= Qabs (-5 # 2))%Q) by (vm_compute; discriminate).
  split; [exact Hz |].
  split; [exact (proj1 (proj1 (severity_classification self) _) Hz) |].
  split; [exact Ht |].
  split; [exact Hle |].
  exact (proj2 (proj2 (severity_classification self)) _ _ Ht Hle).
Defined.

(** ** Division *)

Lemma calculate_z_score_total (self : AnomalyDetector) (c m s : float) :
  succeeds (_calculate_z_score self c m s).
Proof.
  unfold _calculate_z_score, fdiv.
  destruct (is_zero s) eqn:Z; simpl.
  - exists (Num 0). reflexivity.
  - destruct s as [q |]; simpl.
    + destruct (fsub c m); eexists; reflexivity.
    + exists (Num 0). reflexivity.
Qed.

Lemma change_pct_of_total (c e : float) : succeeds (change_pct_of c e).
Proof.
  unfold change_pct_of, truthy, fdiv.
  destruct (is_zero e) eqn:Z; simpl.
  - exists (Num 0). reflexivity.
  - destruct (fsub c e), e; simpl; eexists; reflexivity.
Qed.

(** C3.  The Z-score is 0.0 when the standard deviation is zero or NaN and
    [(current - expected) / std] otherwise; the change is 0 when the
    expected value is zero, whatever the current value; neither computation
    ever divides by zero. *)
Theorem z_score_and_change_pct_guard_division
    (self : AnomalyDetector) (current expected std : float) :
  (is_zero std = true \/ is_nan std = true ->
   _calculate_z_score self current expected std = Ok (Num 0)) /\
  (forall s : Q,
      std = Num s -> ~ (s == 0)%Q ->
      _calculate_z_score self current expected std
      = Ok (match fsub current expected with
            | Num d => Num (d / s)
            | NaN => NaN
            end)) /\
  (is_zero expected = true -> change_pct_of current expected = Ok (Num 0)) /\
  _calculate_z_score self current expected std <> Err ZeroDivisionError /\
  change_pct_of current expected <> Err ZeroDivisionError.
Proof.
  split; [| split; [| split; [| split]]].
  - unfold _calculate_z_score. intros [H | H]; rewrite H.
    + reflexivity.
    + rewrite orb_true_r. reflexivity.
  - intros s -> Hs. unfold _calculate_z_score, fdiv. simpl.
    destruct (Qeq_bool s 0) eqn:E.
    + apply Qeq_bool_iff in E. contradiction.
    + simpl. destruct (fsub current expected); reflexivity.
  - intro H. unfold change_pct_of, truthy. rewrite H. reflexivity.
  - destruct (calculate_z_score_total self current expected std) as [z ->].
    discriminate.
  - destruct (change_pct_of_total current expected) as [p ->]. discriminate.
Qed.

Lemma z_score_and_change_pct_guard_division_witness :
  let self := detector_on sample_db 30 in
  _calculate_z_score self (Num 5) (Num 3) (Num 0) = Ok (Num 0) /\
  _calculate_z_score self (Num 5) (Num 3) NaN = Ok (Num 0) /\
  _calculate_z_score self (Num 5) (Num 3) (Num 2) = Ok (Num ((5 - 3) / 2)) /\
  change_pct_of (Num 5) (Num 0) = Ok (Num 0).
Proof.
  intro self.
  split; [| split; [| split]].
  - apply (z_score_and_change_pct_guard_division self (Num 5) (Num 3)
             (Num 0)).
    left. reflexivity.
  - apply (z_score_and_change_pct_guard_division self (Num 5) (Num 3) NaN).
    right. reflexivity.
  - apply (proj1 (proj2 (z_score_and_change_pct_guard_division self (Num 5)
                           (Num 3) (Num 2))) 2%Q eq_refl).
    vm_compute. discriminate.
  - apply (z_score_and_change_pct_guard_division self (Num 5) (Num 0)
             (Num 1)).
    reflexivity.
Defined.

(** ** Lists, frames and positions *)

Lemma length_insert_by {A : Type} (key : A -> Z) (x : A) (l : list A) :
  length (insert_by key x l) = S (length l).
Proof.
  induction l as [| y rest IH]; simpl.
  - reflexivity.
  - destruct (key x <=? key y)%Z; simpl; [reflexivity | now rewrite IH].
Qed.

Lemma length_sort_by {A : Type} (key : A -> Z) (l : list A) :
  length (sort_by key l) = length l.
Proof.
  induction l as [| x rest IH]; simpl.
  - reflexivity.
  - rewrite length_insert_by, IH. reflexivity.
Qed.

Lemma rolling_nonneg (w : Z) (stat : nat -> list float -> float)
    (xs : list float) :
  (0 <= w)%Z ->
  rolling w stat xs
  = Ok (map (fun i => stat (Z.to_nat w) (window_at (Z.to_nat w) xs i))
          (seq 0 (length xs))).
Proof.
  intro H. unfold rolling.
  destruct (w <? 0)%Z eqn:E; [apply Z.ltb_lt in E; lia | reflexivity].
Qed.

Lemma rolling_negative (w : Z) (stat : nat -> list float -> float)
    (xs : list float) :
  (w < 0)%Z -> rolling w stat xs = Err ValueError.
Proof.
  intro H. unfold rolling. apply Z.ltb_lt in H. rewrite H. reflexivity.
Qed.

Lemma nth_error_assign (f g : nat -> float) (df : DataFrame) :
  forall k i,
    nth_error (assign df (map f (seq k (length df)))
                 (map g (seq k (length df)))) i
    = option_map
        (fun r => {| row := r; rolling_mean := f (k + i);
                     rolling_std := g (k + i) |})
        (nth_error df i).
Proof.
  induction df as [| r rest IH]; intros k i; simpl.
  - destruct i; reflexivity.
  - destruct i as [| i]; simpl.
    + rewrite Nat.add_0_r. reflexivity.
    + rewrite IH. replace (S k + i) with (k + S i) by lia. reflexivity.
Qed.

Lemma length_assign (f g : nat -> float) (df : DataFrame) :
  forall k,
    length (assign df (map f (seq k (length df)))
              (map g (seq k (length df))))
    = length df.
Proof.
  induction df as [| r rest IH]; intro k; simpl.
  - reflexivity.
  - rewrite IH. reflexivity.
Qed.

Lemma iloc_last {A : Type} (l : list A) :
  iloc l (-1)
  = match nth_error l (length l - 1) with
    | Some a => Ok a
    | None => Err IndexError
    end.
Proof.
  unfold iloc. simpl.
  destruct l as [| x rest].
  - reflexivity.
  - replace ((0 <=? Z.of_nat (length (x :: rest)) + -1)%Z) with true
      by (symmetry; apply Z.leb_le; simpl length; lia).
    replace ((Z.of_nat (length (x :: rest)) + -1
              <? Z.of_nat (length (x :: rest)))%Z) with true
      by (symmetry; apply Z.ltb_lt; lia).
    replace (Z.to_nat (Z.of_nat (length (x :: rest)) + -1))
      with (length (x :: rest) - 1) by lia.
    reflexivity.
Qed.

Lemma iloc_before_last {A : Type} (l : list A) :
  2 <= length l ->
  iloc l (-2)
  = match nth_error l (length l - 2) with
    | Some a => Ok a
    | None => Err IndexError
    end.
Proof.
  intro H. unfold iloc. simpl.
  replace ((0 <=? Z.of_nat (length l) + -2)%Z) with true
    by (symmetry; apply Z.leb_le; lia).
  replace ((Z.of_nat (length l) + -2 <? Z.of_nat (length l))%Z) with true
    by (symmetry; apply Z.ltb_lt; lia).
  replace (Z.to_nat (Z.of_nat (length l) + -2)) with (length l - 2) by lia.
  reflexivity.
Qed.

Lemma nth_error_in_range {A : Type} (l : list A) (i : nat) :
  i < length l -> exists a, nth_error l i = Some a.
Proof.
  intro H. destruct (nth_error l i) as [a |] eqn:E.
  - exists a. reflexivity.
  - apply nth_error_None in E. lia.
Qed.

(** ** What a check computes *)

(** Case analysis on the outcome of each step of a sequence of binds. *)
Ltac step_binds :=
  repeat match goal with
         | |- context [bind ?r _] =>
             lazymatch r with
             | bind _ _ => fail
             | _ => destruct r; simpl; try reflexivity
             end
         end.

Section Evaluate.
Variable sqrt : Q -> Q.
Variable self : AnomalyDetector.

Let w := Z.to_nat (window self).

Lemma evaluate_empty : ~ succeeds (evaluate sqrt self []).
Proof.
  unfold evaluate, rolling. simpl.
  destruct (window self <? 0)%Z; simpl; intros [a Ha]; discriminate Ha.
Qed.

Lemma evaluate_negative_window (df : DataFrame) :
  (window self < 0)%Z -> evaluate sqrt self df = Err ValueError.
Proof.
  intro H. unfold evaluate. rewrite rolling_negative by exact H.
  reflexivity.
Qed.

Lemma evaluate_nonempty (df : DataFrame) :
  (0 <= window self)%Z -> df <> [] ->
  exists current,
    nth_error (map value (sort_values df)) (length df - 1) = Some current /\
    evaluate sqrt self df
    = (z_score <- _calculate_z_score self current (expected_of self df)
                    (std_read_of sqrt self df) ;;
       change_pct <- change_pct_of current (expected_of self df) ;;
       Ok (current, expected_of self df, z_score, change_pct)).
Proof.
  intros Hw Hdf.
  assert (Hlen : length (sort_values df) = length df)
    by apply length_sort_by.
  assert (Hpos : 0 < length df)
    by (destruct df; [congruence | simpl; lia]).
  unfold evaluate, expected_of, std_read_of.
  rewrite !rolling_nonneg by exact Hw. fold w. simpl bind.
  set (sorted := sort_values df) in *.
  set (xs := map value sorted).
  assert (Hxs : length xs = length sorted) by apply length_map.
  rewrite Hxs.
  set (f := fun i => mean_of w (window_at w xs i)).
  set (g := fun i => std_of sqrt w (window_at w xs i)).
  set (frame := assign sorted (map f (seq 0 (length sorted)))
                  (map g (seq 0 (length sorted)))).
  assert (Hframe : length frame = length df)
    by (unfold frame; rewrite length_assign; exact Hlen).
  assert (Hnth : forall i,
             nth_error frame i
             = option_map (fun r => {| row := r; rolling_mean := f i;
                                       rolling_std := g i |})
                 (nth_error sorted i))
    by (intro i; unfold frame; rewrite nth_error_assign; reflexivity).
  destruct (@nth_error_in_range _ sorted (length df - 1)) as [r Hr];
    [lia |].
  exists (value r). split.
  { unfold xs. rewrite nth_error_map, Hr. reflexivity. }
  rewrite iloc_last, Hframe, Hnth, Hr. simpl bind.
  unfold previous, reading_position. rewrite Hframe.
  destruct (1 <? length df) eqn:E.
  - apply Nat.ltb_lt in E.
    rewrite iloc_before_last by lia.
    rewrite Hframe, Hnth.
    destruct (@nth_error_in_range _ sorted (length df - 2)) as [r' Hr'];
      [lia |].
    rewrite Hr'. reflexivity.
  - reflexivity.
Qed.

(** A check on a non-empty frame, with a valid window, returns. *)
Lemma evaluate_total (df : DataFrame) :
  (0 <= window self)%Z -> df <> [] -> succeeds (evaluate sqrt self df).
Proof.
  intros Hw Hdf.
  destruct (evaluate_nonempty Hw Hdf) as (current & _ & ->).
  destruct (calculate_z_score_total self current (expected_of self df)
              (std_read_of sqrt self df)) as [z ->].
  destruct (change_pct_of_total current (expected_of self df)) as [p ->].
  eexists. reflexivity.
Qed.

Lemma check_total_tpv_evaluate :
  check_total_tpv sqrt self
  = (df <- execute_query (db self) DailyTpv ;;
     e <- evaluate sqrt self df ;;
     Ok (tpv_alert self "total" e)).
Proof.
  unfold check_total_tpv, evaluate.
  destruct (execute_query (db self) DailyTpv) as [df |]; simpl;
    [| reflexivity].
  step_binds.
Qed.

Lemma check_product_evaluate (product : string) :
  check_product sqrt self product
  = (df <- execute_query (db self) (DailyTpvOf product) ;;
     e <- evaluate sqrt self df ;;
     Ok (tpv_alert self product e)).
Proof.
  unfold check_product, evaluate.
  destruct (execute_query (db self) (DailyTpvOf product)) as [df |]; simpl;
    [| reflexivity].
  step_binds.
Qed.

Lemma check_transactions_evaluate :
  check_transactions sqrt self
  = (df <- execute_query (db self) DailyTxns ;;
     e <- evaluate sqrt self df ;;
     Ok (txns_alert self e)).
Proof.
  unfold check_transactions, evaluate.
  destruct (execute_query (db self) DailyTxns) as [df |]; simpl;
    [| reflexivity].
  step_binds.
Qed.
End Evaluate.

Lemma check_of_evaluate (sqrt : Q -> Q) (self : AnomalyDetector) (q : Query) :
  check_of sqrt self q
  = (df <- execute_query (db self) q ;;
     e <- evaluate sqrt self df ;;
     Ok (alert_of self q e)).
Proof.
  destruct q; simpl.
  - apply check_total_tpv_evaluate.
  - apply check_transactions_evaluate.
  - apply check_product_evaluate.
Qed.

Lemma alert_of_fields (self : AnomalyDetector) (q : Query)
    (c e z p : float) :
  let a := alert_of self q (c, e, z, p) in
  current_value a = c /\ expected_value a = e /\ z_score a = z /\
  change_pct a = p /\ severity a = _get_severity self z.
Proof. destruct q; simpl; repeat split. Qed.

(** A check returns exactly when its query returns a non-empty frame (the
    window being valid). *)
Lemma check_of_total (sqrt : Q -> Q) (self : AnomalyDetector) (q : Query)
    (df : DataFrame) :
  (0 <= window self)%Z ->
  execute_query (db self) q = Ok df -> df <> [] ->
  succeeds (check_of sqrt self q).
Proof.
  intros Hw Hq Hdf. rewrite check_of_evaluate, Hq. simpl.
  destruct (evaluate_total sqrt self Hw Hdf) as [e ->].
  eexists. reflexivity.
Qed.

(** ** Windows that are not full *)

Lemma length_observations (l : list float) :
  length (observations l) <= length l.
Proof.
  induction l as [| [q |] rest IH]; simpl; lia.
Qed.

Lemma length_window_at (w : nat) (xs : list float) (i : nat) :
  length (window_at w xs i) <= i + 1.
Proof.
  unfold window_at. rewrite length_skipn, length_firstn. lia.
Qed.

Lemma mean_of_short (w : nat) (win : list float) :
  length win < w -> mean_of w win = NaN.
Proof.
  intro H. unfold mean_of.
  pose proof (length_observations win) as Hobs.
  replace (w <=? length (observations win)) with false
    by (symmetry; apply Nat.leb_gt; lia).
  reflexivity.
Qed.

Lemma std_of_short (sqrt : Q -> Q) (w : nat) (win : list float) :
  length win < w \/ length win <= 1 -> std_of sqrt w win = NaN.
Proof.
  intro H. unfold std_of.
  pose proof (length_observations win) as Hobs.
  destruct H as [H | H].
  - replace (w <=? length (observations win)) with false
      by (symmetry; apply Nat.leb_gt; lia).
    reflexivity.
  - replace (1 <? length (observations win)) with false
      by (symmetry; apply Nat.ltb_ge; lia).
    rewrite andb_false_r. reflexivity.
Qed.

Lemma rolling_short (w : Z) (stat : nat -> list float -> float)
    (xs : list float) :
  (forall win, length win < Z.to_nat w -> stat (Z.to_nat w) win = NaN) ->
  (Z.of_nat (length xs) < w)%Z ->
  rolling w stat xs = Ok (repeat NaN (length xs)).
Proof.
  intros Hstat Hlen.
  rewrite rolling_nonneg by lia. f_equal.
  assert (H : forall n k, k + n <= length xs ->
                map (fun i => stat (Z.to_nat w) (window_at (Z.to_nat w) xs i))
                  (seq k n) = repeat NaN n).
  { induction n as [| n IH]; intros k Hk; simpl.
    - reflexivity.
    - rewrite IH by lia. f_equal. apply Hstat.
      pose proof (length_window_at (Z.to_nat w) xs k). lia. }
  apply H. lia.
Qed.

Lemma severity_of_zero (self : AnomalyDetector) :
  above_zero (warning_threshold self) ->
  above_zero (critical_threshold self) ->
  _get_severity self (Num 0) = NORMAL.
Proof.
  intros Hw Hc. apply get_severity_cases; assumption.
Qed.

(** With an undefined standard deviation, a check on a non-empty frame sets
    the Z-score to zero. *)
Lemma evaluate_undefined_std (sqrt : Q -> Q) (self : AnomalyDetector)
    (df : DataFrame) :
  (0 <= window self)%Z -> df <> [] ->
  std_read_of sqrt self df = NaN ->
  exists current change,
    nth_error (map value (sort_values df)) (length df - 1) = Some current /\
    change_pct_of current (expected_of self df) = Ok change /\
    evaluate sqrt self df = Ok (current, expected_of self df, Num 0, change).
Proof.
  intros Hw Hdf Hstd.
  destruct (evaluate_nonempty sqrt self Hw Hdf) as (current & Hcur & ->).
  rewrite Hstd.
  destruct (change_pct_of_total current (expected_of self df)) as [p Hp].
  exists current, p. rewrite Hp.
  split; [exact Hcur | split; reflexivity].
Qed.

Lemma change_pct_of_NaN (current : float) :
  change_pct_of current NaN = Ok NaN.
Proof. destruct current; reflexivity. Qed.

Lemma undefined_statistics (sqrt : Q -> Q) (self : AnomalyDetector)
    (df : DataFrame) :
  reading_position (length df) + 1 < Z.to_nat (window self) ->
  expected_of self df = NaN /\ std_read_of sqrt self df = NaN.
Proof.
  intros Hw. unfold expected_of, std_read_of.
  set (w := Z.to_nat (window self)) in *.
  set (xs := map value (sort_values df)).
  pose proof (length_window_at w xs (reading_position (length df))) as Hlen.
  split.
  - apply mean_of_short. lia.
  - apply std_of_short. left. lia.
Qed.

Lemma short_frame_statistics (sqrt : Q -> Q) (self : AnomalyDetector)
    (df : DataFrame) :
  2 <= length df ->
  (Z.of_nat (length df) < window self + 1)%Z ->
  expected_of self df = NaN /\ std_read_of sqrt self df = NaN.
Proof.
  intros H2 Hw. apply undefined_statistics. unfold reading_position.
  replace (1 <? length df) with true by (symmetry; apply Nat.ltb_lt; lia).
  lia.
Qed.

(** C10 (as stated, refuted).  With both thresholds at zero, the series of
    three days under the window of 30 gives the Z-score 0 and the severity
    CRITICAL, not NORMAL: a Z-score of zero reaches a threshold of zero. *)
Lemma short_history_zero_threshold_counterexample :
  let self := zero_threshold_detector in
  execute_query (db self) DailyTpv
  = Ok [ {| day := 1; value := Num 150 |}; {| day := 2; value := Num 160 |};
         {| day := 3; value := Num 515 |} ] /\
  2 <= length sample_tpv /\
  (Z.of_nat (length sample_tpv) < window self + 1)%Z /\
  exists a,
    check_total_tpv sqrt_approx self = Ok a /\
    expected_value a = NaN /\
    z_score a = Num 0 /\
    severity a = CRITICAL /\
    severity a <> NORMAL.
Proof.
  intro self.
  split; [reflexivity |].
  split; [vm_compute; lia |].
  split; [vm_compute; reflexivity |].
  eexists. split; [vm_compute; reflexivity |].
  split; [reflexivity | split; [reflexivity | split; [reflexivity |]]].
  discriminate.
Qed.

(** C10 (amended).  When the series of a check has at least 2 and at most
    [window] observations, the rolling mean and standard deviation read at
    the second-to-last position are NaN, because the rolling computation
    needs a full window; the check then returns an alert whose Z-score is 0,
    whatever the observed values.  Its severity is that of a Z-score of
    zero: NORMAL when both thresholds are above zero (as 2.0 and 3.0 are),
    CRITICAL when the critical threshold is zero or less. *)
Theorem short_history_is_normal
    (sqrt : Q -> Q) (self : AnomalyDetector) (q : Query) (df : DataFrame) :
  execute_query (db self) q = Ok df ->
  2 <= length df ->
  (Z.of_nat (length df) < window self + 1)%Z ->
  expected_of self df = NaN /\
  std_read_of sqrt self df = NaN /\
  exists a,
    check_of sqrt self q = Ok a /\
    expected_value a = NaN /\
    z_score a = Num 0 /\
    severity a = _get_severity self (Num 0) /\
    (above_zero (warning_threshold self) ->
     above_zero (critical_threshold self) ->
     severity a = NORMAL) /\
    (fge (Num 0) (critical_threshold self) -> severity a = CRITICAL).
Proof.
  intros Hq H2 Hlen.
  destruct (short_frame_statistics sqrt self df H2 Hlen) as [Hmean Hstd].
  split; [exact Hmean | split; [exact Hstd |]].
  assert (Hw : (0 <= window self)%Z) by lia.
  assert (Hdf : df <> []) by (destruct df; [simpl in H2; lia | discriminate]).
  destruct (evaluate_undefined_std sqrt self Hw Hdf Hstd)
    as (current & change & _ & _ & He).
  rewrite Hmean in He.
  exists (alert_of self q (current, NaN, Num 0, change)).
  split.
  - rewrite check_of_evaluate, Hq. simpl. rewrite He. reflexivity.
  - destruct (alert_of_fields self q current NaN (Num 0) change)
      as (_ & He' & Hz & _ & Hs).
    split; [exact He' | split; [exact Hz | split; [exact Hs |]]].
    rewrite Hs. split.
    + intros Hwarn Hcrit. apply severity_of_zero; assumption.
    + intro Hcrit.
      apply (proj1 (get_severity_cases self (Num 0))). exact Hcrit.
Qed.

Lemma short_history_is_normal_witness :
  let self := detector_on sample_db 30 in
  let df := sample_tpv in
  execute_query (db self) DailyTpv = Ok df /\
  2 <= length df /\
  (Z.of_nat (length df) < window self + 1)%Z /\
  exists a,
    check_of sqrt_approx self DailyTpv = Ok a /\
    expected_value a = NaN /\ z_score a = Num 0 /\ severity a = NORMAL.
Proof.
  intros self df.
  assert (Hq : execute_query (db self) DailyTpv = Ok df) by reflexivity.
  assert (H2 : 2 <= length df) by (vm_compute; lia).
  assert (Hlen : (Z.of_nat (length df) < window self + 1)%Z)
    by (vm_compute; reflexivity).
  assert (Hwarn : above_zero (warning_threshold self))
    by (intro H; vm_compute in H; apply H; reflexivity).
  assert (Hcrit : above_zero (critical_threshold self))
    by (intro H; vm_compute in H; apply H; reflexivity).
  split; [exact Hq | split; [exact H2 | split; [exact Hlen |]]].
  destruct (proj2 (proj2 (short_history_is_normal sqrt_approx self DailyTpv
                            Hq H2 Hlen)))
    as (a & Ha & He & Hz & _ & Hn & _).
  exists a.
  split; [exact Ha | split; [exact He | split; [exact Hz |]]].
  exact (Hn Hwarn Hcrit).
Defined.

(** C1 (as stated, refuted).  On a series of three days with the window of
    30, the rolling mean is NaN at every position, not the mean of the
    observations available so far, and the check reads NaN as its expected
    value. *)
Lemma rolling_statistics_growing_window_counterexample :
  let self := detector_on sample_db 30 in
  let xs := [Num 150; Num 160; Num 515] in
  execute_query (db self) DailyTpv
  = Ok (map (fun '(d, v) => {| day := d; value := v |})
          (combine [1; 2; 3]%Z xs)) /\
  (Z.of_nat (length xs) < window self)%Z /\
  rolling (window self) mean_of xs = Ok [NaN; NaN; NaN] /\
  rolling (window self) mean_of xs
  <> Ok (growing_rolling (window self) mean_of xs) /\
  exists a,
    check_total_tpv sqrt_approx self = Ok a /\ expected_value a = NaN.
Proof.
  intros self xs.
  split; [reflexivity |].
  split; [reflexivity |].
  split; [reflexivity |].
  split; [vm_compute; discriminate |].
  eexists. split; [vm_compute; reflexivity | reflexivity].
Qed.

(** C1 (amended).  For every non-empty series shorter than the window, the
    rolling mean and the rolling standard deviation that a check computes
    are NaN at every position: pandas needs a full window, nothing is
    computed over the observations available.  The check does not fail for
    that: it returns an alert whose expected value is NaN and whose Z-score
    is 0. *)
Theorem rolling_statistics_need_full_window
    (sqrt : Q -> Q) (self : AnomalyDetector) (q : Query) (df : DataFrame) :
  execute_query (db self) q = Ok df ->
  df <> [] ->
  (Z.of_nat (length df) < window self)%Z ->
  let xs := map value (sort_values df) in
  rolling (window self) mean_of xs = Ok (repeat NaN (length df)) /\
  rolling (window self) (std_of sqrt) xs = Ok (repeat NaN (length df)) /\
  exists a,
    check_of sqrt self q = Ok a /\
    expected_value a = NaN /\
    z_score a = Num 0.
Proof.
  intros Hq Hdf Hlen xs.
  assert (Hxs : length xs = length df)
    by (unfold xs, sort_values; rewrite length_map, length_sort_by;
        reflexivity).
  split; [| split].
  - rewrite <- Hxs. apply rolling_short; [| lia].
    intros win Hwin. apply mean_of_short. exact Hwin.
  - rewrite <- Hxs. apply rolling_short; [| lia].
    intros win Hwin. apply std_of_short. left. exact Hwin.
  - assert (Hpos : 0 < length df)
      by (destruct df; [congruence | simpl; lia]).
    destruct (undefined_statistics sqrt self df) as [Hmean Hstd].
    { unfold reading_position. destruct (1 <? length df); lia. }
    assert (Hw : (0 <= window self)%Z) by lia.
    destruct (evaluate_undefined_std sqrt self Hw Hdf Hstd)
      as (current & change & _ & _ & He).
    rewrite Hmean in He.
    exists (alert_of self q (current, NaN, Num 0, change)).
    split.
    + rewrite check_of_evaluate, Hq. simpl. rewrite He. reflexivity.
    + destruct (alert_of_fields self q current NaN (Num 0) change)
        as (_ & He' & Hz & _).
      split; assumption.
Qed.

Lemma rolling_statistics_need_full_window_witness :
  let self := detector_on sample_db 30 in
  let df := sample_tpv in
  execute_query (db self) DailyTpv = Ok df /\
  df <> [] /\
  (Z.of_nat (length df) < window self)%Z /\
  rolling (window self) mean_of (map value (sort_values df))
  = Ok (repeat NaN (length df)).
Proof.
  intros self df.
  assert (Hq : execute_query (db self) DailyTpv = Ok df) by reflexivity.
  assert (Hdf : df <> []) by (vm_compute; discriminate).
  assert (Hlen : (Z.of_nat (length df) < window self)%Z)
    by (vm_compute; reflexivity).
  split; [exact Hq | split; [exact Hdf | split; [exact Hlen |]]].
  exact (proj1 (rolling_statistics_need_full_window sqrt_approx self DailyTpv
                  Hq Hdf Hlen)).
Defined.

(** ** A series with a single entry *)

Lemma Qmean_single (v : Q) : (Qmean [v] == v)%Q.
Proof.
  unfold Qmean. simpl. field.
Qed.

Lemma change_pct_of_same (c e : Q) :
  (e == c)%Q ->
  exists p, change_pct_of (Num c) (Num e) = Ok (Num p) /\ (p == 0)%Q.
Proof.
  intro H. unfold change_pct_of, truthy, fdiv. simpl.
  destruct (Qeq_bool e 0) eqn:E; simpl.
  - exists 0%Q. split; reflexivity.
  - eexists. split; [reflexivity |].
    setoid_replace (c - e)%Q with 0%Q by (rewrite H; ring).
    unfold Qdiv. ring.
Qed.

Lemma single_entry_statistics (sqrt : Q -> Q) (self : AnomalyDetector)
    (r : Row) :
  std_read_of sqrt self [r] = NaN /\
  ((2 <= window self)%Z -> expected_of self [r] = NaN) /\
  (forall v, window self = 1%Z -> value r = Num v ->
             expected_of self [r] = Num (Qmean [v])).
Proof.
  split; [| split].
  - unfold std_read_of. apply std_of_short. right.
    pose proof (length_window_at (Z.to_nat (window self))
                  (map value (sort_values [r]))
                  (reading_position (length [r]))) as H.
    simpl in H. exact H.
  - intro Hw. apply (undefined_statistics sqrt self [r]). simpl. lia.
  - intros v Hw Hv. unfold expected_of. rewrite Hw. simpl. rewrite Hv.
    reflexivity.
Qed.

(** C4 (as stated, refuted).  On the single-point series [[500]] with the
    default window, the expected value of the alert is NaN, not 500, and so
    is the change. *)
Lemma single_entry_defaults_counterexample :
  let self := detector_on single_point_db 30 in
  execute_query (db self) DailyTpv = Ok [{| day := 1; value := Num 500 |}] /\
  exists a,
    check_total_tpv sqrt_approx self = Ok a /\
    current_value a = Num 500 /\
    expected_value a = NaN /\
    change_pct a = NaN /\
    ~ feq (expected_value a) (current_value a) /\
    ~ feq (change_pct a) (Num 0).
Proof.
  intro self. split; [reflexivity |].
  eexists. split; [vm_compute; reflexivity |].
  simpl. repeat split; auto.
Qed.

(** C4 (amended).  For a series with exactly one entry, a check returns an
    alert with the Z-score 0 and the severity NORMAL (the thresholds being
    above zero).  Its expected value is the rolling mean read at that entry:
    with the window 1 it is the current value and the change is 0; with any
    window of 2 or more, the default 30 included, the expected value is NaN
    and so is the change. *)
Theorem single_entry_alert
    (sqrt : Q -> Q) (self : AnomalyDetector) (q : Query) (r : Row) :
  execute_query (db self) q = Ok [r] ->
  (1 <= window self)%Z ->
  above_zero (warning_threshold self) ->
  above_zero (critical_threshold self) ->
  exists a,
    check_of sqrt self q = Ok a /\
    current_value a = value r /\
    z_score a = Num 0 /\
    severity a = NORMAL /\
    (forall v, window self = 1%Z -> value r = Num v ->
               feq (expected_value a) (Num v) /\ feq (change_pct a) (Num 0)) /\
    ((2 <= window self)%Z ->
     expected_value a = NaN /\ change_pct a = NaN).
Proof.
  intros Hq Hw Hwarn Hcrit.
  destruct (single_entry_statistics sqrt self r) as (Hstd & Hbig & Hone).
  assert (Hw0 : (0 <= window self)%Z) by lia.
  assert (Hdf : [r] <> []) by discriminate.
  destruct (evaluate_undefined_std sqrt self Hw0 Hdf Hstd)
    as (current & change & Hcur & Hchange & He).
  simpl in Hcur. injection Hcur as <-.
  exists (alert_of self q (value r, expected_of self [r], Num 0, change)).
  destruct (alert_of_fields self q (value r) (expected_of self [r]) (Num 0)
              change) as (Hc & He' & Hz & Hp & Hs).
  split; [rewrite check_of_evaluate, Hq; simpl; rewrite He; reflexivity |].
  split; [exact Hc |].
  split; [exact Hz |].
  split; [rewrite Hs; apply severity_of_zero; assumption |].
  rewrite He', Hp. split.
  - intros v Hw1 Hv. rewrite (Hone v Hw1 Hv) in *. rewrite Hv in Hchange.
    split; [apply Qmean_single |].
    destruct (change_pct_of_same (c := v) (e := Qmean [v]) (Qmean_single v))
      as (p & Hp' & Hp0).
    rewrite Hp' in Hchange. injection Hchange as <-. exact Hp0.
  - intro Hw2. rewrite (Hbig Hw2) in *.
    rewrite change_pct_of_NaN in Hchange. injection Hchange as <-.
    split; reflexivity.
Qed.

Lemma single_entry_alert_witness :
  let self := detector_on single_point_db 1 in
  let r := {| day := 1; value := Num 500 |} in
  execute_query (db self) DailyTpv = Ok [r] /\
  (1 <= window self)%Z /\
  exists a,
    check_of sqrt_approx self DailyTpv = Ok a /\
    current_value a = value r /\
    z_score a = Num 0 /\
    severity a = NORMAL /\
    (forall v, window self = 1%Z -> value r = Num v ->
               feq (expected_value a) (Num v) /\ feq (change_pct a) (Num 0)) /\
    ((2 <= window self)%Z ->
     expected_value a = NaN /\ change_pct a = NaN).
Proof.
  intros self r.
  assert (Hq : execute_query (db self) DailyTpv = Ok [r]) by reflexivity.
  assert (Hw : (1 <= window self)%Z) by (simpl; lia).
  assert (Hwarn : above_zero (warning_threshold self))
    by (intro H; vm_compute in H; apply H; reflexivity).
  assert (Hcrit : above_zero (critical_threshold self))
    by (intro H; vm_compute in H; apply H; reflexivity).
  split; [exact Hq | split; [exact Hw |]].
  exact (single_entry_alert sqrt_approx self DailyTpv Hq Hw Hwarn Hcrit).
Defined.

(** ** Initialization *)

(** C5 (as stated, refuted).  A detector built with the warning threshold 3
    and the critical threshold 2 is accepted. *)
Lemma configuration_not_validated_counterexample :
  let dflt := Err (DatabaseError "no default database") in
  ~ fge (Num 2) (Num 3) /\
  exists det,
    __init__ dflt (Some sample_db) None
      (Some (Num 3)) (Some (Num 2)) = Ok det /\
    warning_threshold det = Num 3 /\
    critical_threshold det = Num 2.
Proof.
  split.
  - intro H. vm_compute in H. apply H. reflexivity.
  - eexists. split; [reflexivity | split; reflexivity].
Qed.

(** C5 (amended).  The constructor does not validate the thresholds: given a
    database, initialization succeeds for every configuration, whether or
    not [warning_threshold <= critical_threshold], and keeps the window and
    the thresholds as given (30, 2.0 and 3.0 when omitted); without a
    database it fails exactly when the default database cannot be set up. *)
Theorem initialization_accepts_every_configuration
    (dflt : result Database) (w : option Z) (wt ct : option float) :
  (forall d : Database,
      exists det,
        __init__ dflt (Some d) w wt ct = Ok det /\
        db det = d /\
        window det = match w with Some x => x | None => 30%Z end /\
        warning_threshold det = match wt with Some t => t | None => Num 2 end /\
        critical_threshold det
        = match ct with Some t => t | None => Num 3 end) /\
  (succeeds (__init__ dflt None w wt ct) <-> succeeds dflt).
Proof.
  split.
  - intro d. eexists. split; [reflexivity |]. repeat split.
  - unfold __init__. destruct dflt as [d | e]; simpl; split; intros [x Hx];
      try discriminate; eexists; reflexivity.
Qed.

(** ** Stable sorting *)

Section SortFacts.
Variable A : Type.
Variable key : A -> Z.






Lemma insert_by_perm (x : A) (l : list A) :
  Permutation (insert_by key x l) (x :: l).
Proof.
  induction l as [| y rest IH]; simpl.
  - apply Permutation_refl.
  - destruct (key x <=? key y)%Z.
    + apply Permutation_refl.
    + apply perm_trans with (y :: x :: rest).
      * apply perm_skip. exact IH.
      * apply perm_swap.
Qed.

Lemma sort_by_perm (l : list A) : Permutation (sort_by key l) l.
Proof.
  induction l as [| x rest IH]; simpl.
  - apply Permutation_refl.
  - apply perm_trans with (x :: sort_by key rest).
    + apply insert_by_perm.
    + apply perm_skip. exact IH.
Qed.


(** Sorting the pairs (key, element) by their first component and dropping
    the keys is sorting the elements by key. *)
Lemma insert_by_decorated (x : A) (l : list A) :
  insert_by fst (key x, x) (map (fun y => (key y, y)) l)
  = map (fun y => (key y, y)) (insert_by key x l).
Proof.
  induction l as [| y rest IH]; simpl.
  - reflexivity.
  - destruct (key x <=? key y)%Z; simpl; [reflexivity | now rewrite IH].
Qed.

Lemma sort_by_decorated (l : list A) :
  map snd (sort_by fst (combine (map key l) l)) = sort_by key l.
Proof.
  assert (Hc : combine (map key l) l = map (fun y => (key y, y)) l)
    by (induction l as [| y rest IH]; simpl; [| rewrite IH]; reflexivity).
  rewrite Hc. clear Hc.
  assert (Hs : sort_by fst (map (fun y => (key y, y)) l)
               = map (fun y => (key y, y)) (sort_by key l)).
  { induction l as [| y rest IH]; simpl; [reflexivity |].
    rewrite IH. apply insert_by_decorated. }
  rewrite Hs, map_map. simpl. apply map_id.
Qed.
End SortFacts.

Lemma mapM_pure {A B : Type} (f : A -> result B) (g : A -> B) (l : list A) :
  (forall x, In x l -> f x = Ok (g x)) -> mapM f l = Ok (map g l).
Proof.
  induction l as [| x rest IH]; simpl; intro H.
  - reflexivity.
  - rewrite (H x (or_introl eq_refl)), IH; [reflexivity |].
    intros y Hy. apply H. right. exact Hy.
Qed.

Lemma severity_order_to_display (a : Alert) :
  severity_order (display_severity (to_display a))
  = Ok (severity_rank (to_display a)).
Proof. destruct a as [? ? ? ? ? [| |] ? ?]; reflexivity. Qed.

Lemma sort_with_key_display (alerts : list Alert) :
  sort_with_key (fun x => severity_order (display_severity x))
    (map to_display alerts)
  = Ok (sort_by severity_rank (map to_display alerts)).
Proof.
  unfold sort_with_key.
  rewrite (mapM_pure _ severity_rank).
  - simpl. rewrite sort_by_decorated. reflexivity.
  - intros x Hx. apply in_map_iff in Hx as (a & <- & _).
    apply severity_order_to_display.
Qed.

(** ** Orchestration *)

Lemma run_all_checks_Ok (sqrt : Q -> Q) (self : AnomalyDetector)
    (res : Results) :
  run_all_checks sqrt self = Ok res ->
  check_total_tpv sqrt self = Ok (total_tpv res) /\
  check_transactions sqrt self = Ok (transactions res) /\
  check_tpv_by_product sqrt self = Ok (by_product res) /\
  summary res = fold_left count_alert (all_alerts res) empty_summary.
Proof.
  unfold run_all_checks. intro H.
  apply bind_Ok in H as (tpv & Htpv & H).
  apply bind_Ok in H as (txns & Htxns & H).
  apply bind_Ok in H as (ps & Hps & H).
  injection H as <-. simpl. repeat split; assumption.
Qed.

Lemma run_all_checks_of (sqrt : Q -> Q) (self : AnomalyDetector)
    (tpv txns : Alert) (ps : list Alert) :
  check_total_tpv sqrt self = Ok tpv ->
  check_transactions sqrt self = Ok txns ->
  check_tpv_by_product sqrt self = Ok ps ->
  run_all_checks sqrt self
  = Ok {| total_tpv := tpv; transactions := txns; by_product := ps;
          summary := fold_left count_alert (tpv :: txns :: ps)
                       empty_summary |}.
Proof.
  intros H1 H2 H3. unfold run_all_checks. rewrite H1, H2, H3. reflexivity.
Qed.

Lemma count_alerts (l : list Alert) :
  forall s,
    let s' := fold_left count_alert l s in
    total_alerts s' = total_alerts s + length l /\
    critical s' = critical s + count_severity CRITICAL l /\
    warning s' = warning s + count_severity WARNING l /\
    normal s' = normal s + count_severity NORMAL l.
Proof.
  unfold count_severity.
  induction l as [| a rest IH]; intro s; simpl.
  - split; [| split; [| split]]; lia.
  - destruct (IH (count_alert s a)) as (Ht & Hc & Hw & Hn).
    rewrite Ht, Hc, Hw, Hn. unfold count_alert.
    destruct (severity a); simpl; (split; [| split; [| split]]); lia.
Qed.

Lemma count_severity_partition (l : list Alert) :
  count_severity CRITICAL l + count_severity WARNING l
  + count_severity NORMAL l = length l.
Proof.
  unfold count_severity.
  induction l as [| a rest IH]; simpl in *; [reflexivity |].
  destruct (severity a); simpl; lia.
Qed.

Lemma check_product_dimension (sqrt : Q -> Q) (self : AnomalyDetector)
    (product : string) (a : Alert) :
  check_product sqrt self product = Ok a ->
  metric a = "tpv" /\ dimension a = product.
Proof.
  rewrite check_product_evaluate. intro H.
  apply bind_Ok in H as (df & _ & H).
  apply bind_Ok in H as ([[[c e] z] p] & _ & H).
  injection H as <-. split; reflexivity.
Qed.

Lemma by_product_dimensions (sqrt : Q -> Q) (self : AnomalyDetector)
    (products : list string) (alerts : list Alert) :
  mapM (check_product sqrt self) products = Ok alerts ->
  map dimension alerts = products.
Proof.
  intro H. apply mapM_Forall2 in H.
  induction H as [| p a ps rest Ha _ IH]; simpl.
  - reflexivity.
  - apply check_product_dimension in Ha as [_ ->]. rewrite IH. reflexivity.
Qed.





(** ** One alert per product *)

(** When every fetch returns a non-empty frame, the orchestration returns:
    two total alerts and one alert per product listed. *)
Lemma run_all_checks_total (sqrt : Q -> Q) (self : AnomalyDetector)
    (products : list string) :
  (0 <= window self)%Z ->
  (forall q, q = DailyTpv \/ q = DailyTxns \/
             (exists p, In p products /\ q = DailyTpvOf p) ->
             exists df, execute_query (db self) q = Ok df /\ df <> []) ->
  get_unique_values (db self) "product" = Ok products ->
  exists res,
    run_all_checks sqrt self = Ok res /\
    map dimension (by_product res) = products.
Proof.
  intros Hw Hq Hps.
  assert (Hcheck : forall q,
             q = DailyTpv \/ q = DailyTxns \/
             (exists p, In p products /\ q = DailyTpvOf p) ->
             succeeds (check_of sqrt self q)).
  { intros q Hin. destruct (Hq q Hin) as (df & Hdf & Hne).
    apply (check_of_total sqrt self q Hw Hdf Hne). }
  destruct (Hcheck DailyTpv) as [tpv Htpv]; [auto |].
  destruct (Hcheck DailyTxns) as [txns Htxns]; [auto |].
  destruct (mapM_total (check_product sqrt self) products) as [ps Hby].
  { intros p Hp. apply (Hcheck (DailyTpvOf p)). right. right.
    exists p. auto. }
  simpl in Htpv, Htxns.
  eexists. split.
  - apply run_all_checks_of; [exact Htpv | exact Htxns |].
    unfold check_tpv_by_product. rewrite Hps. exact Hby.
  - simpl. apply (by_product_dimensions _ _ _ Hby).
Qed.

Lemma summary_counts (sqrt : Q -> Q) (self : AnomalyDetector) (res : Results) :
  run_all_checks sqrt self = Ok res ->
  total_alerts (summary res) = 2 + length (by_product res) /\
  critical (summary res) = count_severity CRITICAL (all_alerts res) /\
  warning (summary res) = count_severity WARNING (all_alerts res) /\
  normal (summary res) = count_severity NORMAL (all_alerts res) /\
  critical (summary res) + warning (summary res) + normal (summary res)
  = total_alerts (summary res).
Proof.
  intro H. apply run_all_checks_Ok in H as (_ & _ & _ & Hs).
  destruct (count_alerts (all_alerts res) empty_summary)
    as (Ht & Hc & Hw & Hn).
  rewrite <- Hs in Ht, Hc, Hw, Hn. simpl in Ht, Hc, Hw, Hn.
  pose proof (count_severity_partition (all_alerts res)) as Hp.
  unfold all_alerts in Ht, Hp. simpl in Ht, Hp.
  repeat split; try assumption. unfold all_alerts in *. simpl in *. lia.
Qed.

(** C9.  The orchestration produces the two total alerts and exactly one
    alert per product listed by [get_unique_values], in that order, so that
    [total_alerts] is 2 plus the number of products, and the three severity
    counts add up to [total_alerts].  It does return, whatever the products
    listed are, when the window is not negative and every fetch returns a
    frame that is not empty; products listed once each then have one alert
    each. *)
Theorem one_alert_per_product (sqrt : Q -> Q) :
  (forall (self : AnomalyDetector) (res : Results) (products : list string),
      run_all_checks sqrt self = Ok res ->
      get_unique_values (db self) "product" = Ok products ->
      map dimension (by_product res) = products /\
      total_alerts (summary res) = 2 + length products /\
      critical (summary res) = count_severity CRITICAL (all_alerts res) /\
      warning (summary res) = count_severity WARNING (all_alerts res) /\
      normal (summary res) = count_severity NORMAL (all_alerts res) /\
      critical (summary res) + warning (summary res) + normal (summary res)
      = total_alerts (summary res)) /\
  (forall (self : AnomalyDetector) (products : list string),
      (0 <= window self)%Z ->
      get_unique_values (db self) "product" = Ok products ->
      (forall q,
          q = DailyTpv \/ q = DailyTxns \/
          (exists p, In p products /\ q = DailyTpvOf p) ->
          exists df, execute_query (db self) q = Ok df /\ df <> []) ->
      exists res,
        run_all_checks sqrt self = Ok res /\
        map dimension (by_product res) = products /\
        length (by_product res) = length products /\
        total_alerts (summary res) = 2 + length products /\
        (NoDup products -> NoDup (map dimension (by_product res)))).
Proof.
  split.
  - intros self res products Hrun Hps.
    destruct (summary_counts sqrt self Hrun) as (Ht & Hc & Hw & Hn & Hsum).
    assert (Hdim : map dimension (by_product res) = products).
    { apply run_all_checks_Ok in Hrun as (_ & _ & Hby & _).
      unfold check_tpv_by_product in Hby. rewrite Hps in Hby.
      apply (by_product_dimensions _ _ _ Hby). }
    split; [exact Hdim |].
    split; [rewrite Ht, <- Hdim, length_map; reflexivity |].
    repeat split; assumption.
  - intros self products Hw Hps Hq.
    destruct (run_all_checks_total sqrt self Hw Hq Hps) as (res & Hres & Hdim).
    exists res. split; [exact Hres |]. split; [exact Hdim |].
    assert (Hlen : length (by_product res) = length products)
      by (rewrite <- Hdim; symmetry; apply length_map).
    split; [exact Hlen |].
    split.
    + destruct (summary_counts sqrt self Hres) as (Ht & _).
      rewrite Ht, Hlen. reflexivity.
    + intro Hnd. rewrite Hdim. exact Hnd.
Qed.

Lemma one_alert_per_product_witness :
  let self := detector_on sample_db 2 in
  (0 <= window self)%Z /\
  get_unique_values (db self) "product" = Ok ["pix"; "pos"] /\
  exists res,
    run_all_checks sqrt_approx self = Ok res /\
    map dimension (by_product res) = ["pix"; "pos"] /\
    length (by_product res) = 2 /\
    total_alerts (summary res) = 4 /\
    (NoDup ["pix"; "pos"] -> NoDup (map dimension (by_product res))).
Proof.
  intro self.
  assert (Hw : (0 <= window self)%Z) by (simpl; lia).
  assert (Hps : get_unique_values (db self) "product" = Ok ["pix"; "pos"])
    by reflexivity.
  split; [exact Hw | split; [exact Hps |]].
  apply (proj2 (one_alert_per_product sqrt_approx) self ["pix"; "pos"] Hw Hps).
  intros q [-> | [-> | (p & [<- | [<- | []]] & ->)]];
    eexists; (split; [reflexivity | discriminate]).
Defined.

(** ** A fetch that fails *)

Lemma check_of_fetch_error (sqrt : Q -> Q) (self : AnomalyDetector)
    (q : Query) (e : exn) :
  execute_query (db self) q = Err e -> check_of sqrt self q = Err e.
Proof.
  intro H. rewrite check_of_evaluate, H. reflexivity.
Qed.

Lemma not_succeeds_Err {A : Type} (r : result A) :
  ~ succeeds r -> exists e, r = Err e.
Proof.
  destruct r as [a | e]; intro H.
  - exfalso. apply H. exists a. reflexivity.
  - exists e. reflexivity.
Qed.

Lemma mapM_first_error {A B : Type} (f : A -> result B)
    (before after : list A) (x : A) (e : exn) :
  (forall y, In y before -> succeeds (f y)) ->
  f x = Err e ->
  mapM f (before ++ x :: after) = Err e.
Proof.
  induction before as [| y rest IH]; simpl; intros Hb Hx.
  - rewrite Hx. reflexivity.
  - destruct (Hb y (or_introl eq_refl)) as [b ->]. simpl.
    rewrite IH; [reflexivity | | exact Hx].
    intros z Hz. apply Hb. right. exact Hz.
Qed.

(** C8 (as stated, refuted).  With a connection that fails on the query of
    product "pos" only, the two total checks and the check of "pix" succeed
    on their own, and yet [run_all_checks] returns no alert at all: the
    exception of the failed fetch is the outcome of the whole call, and of
    [get_alerts_for_display] after it. *)
Lemma failed_fetch_isolated_counterexample :
  let self := failing_detector in
  let e := DatabaseError "database is locked" in
  get_unique_values (db self) "product" = Ok ["pix"; "pos"] /\
  execute_query (db self) (DailyTpvOf "pos") = Err e /\
  succeeds (check_total_tpv sqrt_approx self) /\
  succeeds (check_transactions sqrt_approx self) /\
  succeeds (check_product sqrt_approx self "pix") /\
  run_all_checks sqrt_approx self = Err e /\
  get_alerts_for_display sqrt_approx self = Err e.
Proof.
  intros self e.
  split; [reflexivity |].
  split; [reflexivity |].
  split; [eexists; vm_compute; reflexivity |].
  split; [eexists; vm_compute; reflexivity |].
  split; [eexists; vm_compute; reflexivity |].
  split; vm_compute; reflexivity.
Qed.

(** C8 (amended).  If the series fetch of a single check fails, the
    orchestration aborts: [run_all_checks] raises instead of returning, no
    alert of the other checks reaches the caller, and
    [get_alerts_for_display] raises as well.  When everything before the
    failed product fetch succeeded, the exception raised is that of the
    fetch. *)
Theorem failed_fetch_aborts_all_checks
    (sqrt : Q -> Q) (self : AnomalyDetector) :
  ((~ succeeds (execute_query (db self) DailyTpv) \/
    ~ succeeds (execute_query (db self) DailyTxns) \/
    exists products p,
      get_unique_values (db self) "product" = Ok products /\
      In p products /\
      ~ succeeds (execute_query (db self) (DailyTpvOf p))) ->
   (exists e, run_all_checks sqrt self = Err e) /\
   (exists e, get_alerts_for_display sqrt self = Err e)) /\
  (forall before after p e,
      succeeds (check_total_tpv sqrt self) ->
      succeeds (check_transactions sqrt self) ->
      get_unique_values (db self) "product" = Ok (before ++ p :: after) ->
      (forall p', In p' before -> succeeds (check_product sqrt self p')) ->
      execute_query (db self) (DailyTpvOf p) = Err e ->
      run_all_checks sqrt self = Err e /\
      get_alerts_for_display sqrt self = Err e).
Proof.
  split.
  - intro H.
    assert (Hrun : ~ succeeds (run_all_checks sqrt self)).
    { intros [res Hres].
      apply run_all_checks_Ok in Hres as (Htpv & Htxns & Hby & _).
      destruct H as [H | [H | (products & p & Hps & Hp & H)]].
      - change (check_of sqrt self DailyTpv = Ok (total_tpv res)) in Htpv.
        rewrite check_of_evaluate in Htpv.
        apply bind_Ok in Htpv as (df & Hdf & _).
        apply H. exists df. exact Hdf.
      - change (check_of sqrt self DailyTxns = Ok (transactions res))
          in Htxns.
        rewrite check_of_evaluate in Htxns.
        apply bind_Ok in Htxns as (df & Hdf & _).
        apply H. exists df. exact Hdf.
      - unfold check_tpv_by_product in Hby. rewrite Hps in Hby.
        simpl in Hby.
        apply (@mapM_Err _ _ (check_product sqrt self) products p Hp).
        + intros [a Ha].
          change (check_of sqrt self (DailyTpvOf p) = Ok a) in Ha.
          rewrite check_of_evaluate in Ha.
          apply bind_Ok in Ha as (df & Hdf & _).
          apply H. exists df. exact Hdf.
        + exists (by_product res). exact Hby. }
    destruct (not_succeeds_Err Hrun) as [e He].
    split; exists e; [exact He |].
    unfold get_alerts_for_display. rewrite He. reflexivity.
  - intros before after p e [tpv Htpv] [txns Htxns] Hps Hbefore Hp.
    assert (Hrun : run_all_checks sqrt self = Err e).
    { unfold run_all_checks, check_tpv_by_product.
      rewrite Htpv, Htxns, Hps. simpl.
      rewrite (@mapM_first_error _ _ (check_product sqrt self) before after
                 p e); [reflexivity | exact Hbefore |].
      apply (check_of_fetch_error sqrt self (DailyTpvOf p) Hp). }
    split; [exact Hrun |].
    unfold get_alerts_for_display. rewrite Hrun. reflexivity.
Qed.

Lemma failed_fetch_aborts_all_checks_witness :
  let self := failing_detector in
  let e := DatabaseError "database is locked" in
  get_unique_values (db self) "product" = Ok (["pix"] ++ "pos" :: []) /\
  execute_query (db self) (DailyTpvOf "pos") = Err e /\
  run_all_checks sqrt_approx self = Err e /\
  get_alerts_for_display sqrt_approx self = Err e.
Proof.
  intros self e.
  assert (Hps : get_unique_values (db self) "product"
                = Ok (["pix"] ++ "pos" :: [])) by reflexivity.
  assert (Hp : execute_query (db self) (DailyTpvOf "pos") = Err e)
    by reflexivity.
  split; [exact Hps | split; [exact Hp |]].
  apply (proj2 (failed_fetch_aborts_all_checks sqrt_approx self)
           ["pix"] [] "pos" e).
  - eexists. vm_compute. reflexivity.
  - eexists. vm_compute. reflexivity.
  - exact Hps.
  - intros p' [<- | []]. eexists. vm_compute. reflexivity.
  - exact Hp.
Defined.

(** ** Messages *)

Example format_one_decimal :
  format_f false 1 (Num (14400 # 62)) = "232.3".
Proof. reflexivity. Qed.

Example format_two_decimals_negative :
  format_f false 2 (Num (-304 # 640)) = "-0.48".
Proof. reflexivity. Qed.

Example currency_grouping :
  currency (Num (1234567891 # 1000)) = "R$ 1,234,567.89".
Proof. reflexivity. Qed.

Example format_half_to_even :
  format_f true 0 (Num (5 # 2)) = "2" /\ format_f true 0 (Num (7 # 2)) = "4".
Proof. split; reflexivity. Qed.

Example format_nan : format_f true 2 NaN = "nan".
Proof. reflexivity. Qed.

Lemma format_message_spec (self : AnomalyDetector) (m d : string)
    (z p c e : float) (s : AlertSeverity) :
  _format_message self m d z p c e
  = spec_message {| metric := m; dimension := d; current_value := c;
                    expected_value := e; z_score := z; severity := s;
                    change_pct := p; message := "" |}.
Proof.
  unfold _format_message, spec_message, spec_label, spec_direction, currency.
  simpl. destruct (String.eqb d "total"); reflexivity.
Qed.

Lemma tpv_alert_message (self : AnomalyDetector) (d : string)
    (e : float * float * float * float) :
  message (tpv_alert self d e) = spec_message (tpv_alert self d e).
Proof.
  destruct e as [[[c x] z] p]. simpl.
  rewrite (format_message_spec self "tpv" d z p c x NORMAL). reflexivity.
Qed.

Lemma check_product_message (sqrt : Q -> Q) (self : AnomalyDetector)
    (product : string) (a : Alert) :
  check_product sqrt self product = Ok a -> message a = spec_message a.
Proof.
  rewrite check_product_evaluate. intro H.
  apply bind_Ok in H as (df & _ & H).
  apply bind_Ok in H as (e & _ & H).
  injection H as <-. apply tpv_alert_message.
Qed.

(** C7 (as stated, refuted).  The message of the transaction-count check is
    not formed by the rules of the TPV messages: its label is "Transaction
    count", and the current and expected values are whole numbers without a
    currency sign. *)
Lemma transaction_message_format_counterexample :
  let self := detector_on sample_db 2 in
  exists a,
    check_transactions sqrt_approx self = Ok a /\
    metric a = "transactions" /\
    dimension a = "total" /\
    message a
    = "Transaction count spiked 63.6% (Z-score: 1.65). Current: 9, Expected: 6" /\
    spec_message a
    = "Total TRANSACTIONS spiked 63.6% (Z-score: 1.65). Current: R$ 9.00, Expected: R$ 5.50" /\
    message a <> spec_message a.
Proof.
  intro self. eexists.
  split; [vm_compute; reflexivity |].
  split; [reflexivity |].
  split; [reflexivity |].
  split; [vm_compute; reflexivity |].
  split; [vm_compute; reflexivity |].
  vm_compute. discriminate.
Qed.

(** C7 (amended).  The messages of the TPV checks (total and per product)
    follow the formation rules: "dropped" when the Z-score is negative and
    "spiked" otherwise, the label "Total TPV" or "TPV for <PRODUCT>", the
    magnitude of the change to one decimal, the Z-score to two decimals, the
    current and expected values as currency with two decimals.  The message
    of the transaction-count check has the same direction word, change and
    Z-score, under the label "Transaction count" and with the current and
    expected values as whole numbers. *)
Theorem alert_messages_follow_format
    (sqrt : Q -> Q) (self : AnomalyDetector) :
  (forall a,
      check_total_tpv sqrt self = Ok a ->
      metric a = "tpv" /\ dimension a = "total" /\
      message a = spec_message a) /\
  (forall alerts,
      check_tpv_by_product sqrt self = Ok alerts ->
      Forall (fun a => metric a = "tpv" /\ message a = spec_message a)
        alerts) /\
  (forall a,
      check_transactions sqrt self = Ok a ->
      metric a = "transactions" /\ dimension a = "total" /\
      message a = transaction_message a).
Proof.
  split; [| split].
  - intros a H. rewrite check_total_tpv_evaluate in H.
    apply bind_Ok in H as (df & _ & H).
    apply bind_Ok in H as (e & _ & H).
    injection H as <-.
    split; [destruct e as [[[? ?] ?] ?]; reflexivity |].
    split; [destruct e as [[[? ?] ?] ?]; reflexivity |].
    apply tpv_alert_message.
  - intros alerts H. unfold check_tpv_by_product in H.
    apply bind_Ok in H as (products & _ & H).
    apply mapM_Forall2 in H.
    induction H as [| p a ps rest Ha _ IH]; constructor.
    + split.
      * apply (check_product_dimension _ _ _ Ha).
      * apply (check_product_message _ _ _ Ha).
    + exact IH.
  - intros a H. rewrite check_transactions_evaluate in H.
    apply bind_Ok in H as (df & _ & H).
    apply bind_Ok in H as ([[[c x] z] p] & _ & H).
    injection H as <-. repeat split.
Qed.

Lemma alert_messages_follow_format_witness :
  let self := detector_on sample_db 2 in
  exists a,
    check_total_tpv sqrt_approx self = Ok a /\
    metric a = "tpv" /\ dimension a = "total" /\
    message a = spec_message a.
Proof.
  intro self. eexists. split.
  - vm_compute. reflexivity.
  - apply (proj1 (alert_messages_follow_format sqrt_approx self)).
    vm_compute. reflexivity.
Defined.

(** * Further properties of the detector *)

(** ** The outcome of a check *)

Lemma evaluate_empty_IndexError (sqrt : Q -> Q) (self : AnomalyDetector) :
  (0 <= window self)%Z -> evaluate sqrt self [] = Err IndexError.
Proof.
  intro Hw. unfold evaluate. rewrite !rolling_nonneg by exact Hw.
  reflexivity.
Qed.

(** A check raises the exception of its fetch; with a negative window it
    raises [ValueError], even on an empty frame; with a valid window it
    raises [IndexError] on an empty frame and returns an alert on any
    other. *)
Theorem check_outcome (sqrt : Q -> Q) (self : AnomalyDetector) (q : Query) :
  (forall e,
      execute_query (db self) q = Err e -> check_of sqrt self q = Err e) /\
  (forall df,
      execute_query (db self) q = Ok df -> (window self < 0)%Z ->
      check_of sqrt self q = Err ValueError) /\
  ((0 <= window self)%Z ->
   execute_query (db self) q = Ok [] ->
   check_of sqrt self q = Err IndexError) /\
  (forall df,
      (0 <= window self)%Z ->
      execute_query (db self) q = Ok df -> df <> [] ->
      exists a, check_of sqrt self q = Ok a).
Proof.
  split; [| split; [| split]].
  - intros e H. apply check_of_fetch_error. exact H.
  - intros df H Hw. rewrite check_of_evaluate, H. simpl.
    rewrite evaluate_negative_window by exact Hw. reflexivity.
  - intros Hw H. rewrite check_of_evaluate, H. simpl.
    rewrite evaluate_empty_IndexError by exact Hw. reflexivity.
  - intros df Hw H Hdf. apply (check_of_total sqrt self q Hw H Hdf).
Qed.

Lemma check_outcome_witness :
  check_of sqrt_approx (detector_on empty_db 30) DailyTpv = Err IndexError /\
  check_of sqrt_approx (detector_on empty_db (-1)) DailyTxns = Err ValueError /\
  check_of sqrt_approx failing_detector (DailyTpvOf "pos")
  = Err (DatabaseError "database is locked") /\
  exists a, check_of sqrt_approx (detector_on sample_db 2) DailyTpv = Ok a.
Proof.
  split; [| split; [| split]].
  - apply (proj1 (proj2 (proj2 (check_outcome sqrt_approx
                                  (detector_on empty_db 30) DailyTpv)))).
    + simpl. lia.
    + reflexivity.
  - apply (proj1 (proj2 (check_outcome sqrt_approx (detector_on empty_db (-1))
                           DailyTxns)) []).
    + reflexivity.
    + simpl. lia.
  - apply (proj1 (check_outcome sqrt_approx failing_detector
                    (DailyTpvOf "pos"))).
    reflexivity.
  - apply (proj2 (proj2 (proj2 (check_outcome sqrt_approx
                                  (detector_on sample_db 2) DailyTpv)))
             sample_tpv).
    + simpl. lia.
    + reflexivity.
    + vm_compute. discriminate.
Defined.

(** What a returned alert is made of. *)
Lemma check_of_Ok_inv (sqrt : Q -> Q) (self : AnomalyDetector) (q : Query)
    (a : Alert) :
  check_of sqrt self q = Ok a ->
  exists df current,
    execute_query (db self) q = Ok df /\
    df <> [] /\
    (0 <= window self)%Z /\
    nth_error (map value (sort_values df)) (length df - 1) = Some current /\
    current_value a = current /\
    expected_value a = expected_of self df /\
    _calculate_z_score self current (expected_of self df)
      (std_read_of sqrt self df) = Ok (z_score a) /\
    change_pct_of current (expected_of self df) = Ok (change_pct a) /\
    severity a = _get_severity self (z_score a).
Proof.
  rewrite check_of_evaluate. intro H.
  apply bind_Ok in H as (df & Hdf & H).
  apply bind_Ok in H as ([[[c e] z] p] & He & H).
  injection H as <-.
  assert (Hne : df <> []).
  { intros ->. apply (evaluate_empty sqrt self). eexists. exact He. }
  assert (Hw : (0 <= window self)%Z).
  { destruct (Z.lt_ge_cases (window self) 0) as [Hneg | Hpos];
      [| exact Hpos].
    rewrite evaluate_negative_window in He by exact Hneg. discriminate. }
  destruct (evaluate_nonempty sqrt self Hw Hne) as (current & Hcur & Heq).
  rewrite Heq in He.
  apply bind_Ok in He as (z' & Hz & He).
  apply bind_Ok in He as (p' & Hp & He).
  injection He as <- <- <- <-.
  exists df, current.
  destruct (alert_of_fields self q current (expected_of self df) z' p')
    as (Hc & He' & Hz' & Hp' & Hs).
  rewrite Hc, He', Hz', Hp', Hs.
  repeat split; assumption.
Qed.

(** ** Alerts above NORMAL need history *)

Lemma std_of_defined (sqrt : Q -> Q) (w : nat) (win : list float) (s : Q) :
  std_of sqrt w win = Num s ->
  w <= length win /\ 2 <= length win /\
  mean_of w win = Num (Qmean (observations win)).
Proof.
  unfold std_of, mean_of. intro H.
  pose proof (length_observations win) as Hobs.
  destruct (w <=? length (observations win)) eqn:E1;
    [| discriminate H].
  destruct (1 <? length (observations win)) eqn:E2; [| discriminate H].
  apply Nat.leb_le in E1. apply Nat.ltb_lt in E2.
  replace (0 <? length (observations win)) with true
    by (symmetry; apply Nat.ltb_lt; lia).
  repeat split; try lia.
Qed.

Lemma length_window_at_window (w : nat) (xs : list float) (i : nat) :
  length (window_at w xs i) <= w.
Proof.
  unfold window_at. rewrite length_skipn, length_firstn. lia.
Qed.

Lemma severity_of_NaN (self : AnomalyDetector) :
  _get_severity self NaN = NORMAL.
Proof. reflexivity. Qed.

(** An alert whose severity is WARNING or CRITICAL was computed from a full
    window: the window is at least 2 and the series has at least [window +
    1] observations (the thresholds being above zero).  And the Z-score of
    an alert is a number whenever the current value is. *)
Theorem alert_above_normal_needs_full_window
    (sqrt : Q -> Q) (self : AnomalyDetector) (q : Query) (df : DataFrame)
    (a : Alert) :
  execute_query (db self) q = Ok df ->
  check_of sqrt self q = Ok a ->
  ((exists c, current_value a = Num c) -> exists z, z_score a = Num z) /\
  (above_zero (warning_threshold self) ->
   above_zero (critical_threshold self) ->
   severity a <> NORMAL ->
   (2 <= window self)%Z /\ (window self + 1 <= Z.of_nat (length df))%Z).
Proof.
  intros Hq Ha.
  destruct (check_of_Ok_inv sqrt self q Ha)
    as (df' & current & Hq' & Hne & Hw & Hcur & Hc & He & Hz & Hp & Hs).
  rewrite Hq in Hq'. injection Hq' as <-.
  unfold _calculate_z_score in Hz.
  destruct (std_read_of sqrt self df) as [s |] eqn:Hstd.
  2: { simpl in Hz. assert (Hz0 : z_score a = Num 0) by congruence. split.
       - intros _. exists 0%Q. exact Hz0.
       - intros Hwarn Hcrit Hsev. exfalso. apply Hsev.
         rewrite Hs, Hz0. apply severity_of_zero; assumption. }
  unfold std_read_of in Hstd.
  apply std_of_defined in Hstd as (Hlen1 & Hlen2 & Hmean).
  fold (expected_of self df) in Hmean.
  simpl in Hz. rewrite orb_false_r in Hz.
  destruct (Qeq_bool s 0) eqn:Es.
  { assert (Hz0 : z_score a = Num 0) by congruence. split.
    - intros _. exists 0%Q. exact Hz0.
    - intros Hwarn Hcrit Hsev. exfalso. apply Hsev.
      rewrite Hs, Hz0. apply severity_of_zero; assumption. }
  split.
  - intros [c Hcv]. rewrite Hc in Hcv. rewrite Hcv in Hz.
    rewrite Hmean in Hz. unfold fdiv in Hz. simpl in Hz.
    rewrite Es in Hz. eexists. symmetry.
    assert (Hz0 : forall x y : float, Ok x = Ok y -> x = y)
      by (intros x y E; injection E; auto).
    apply Hz0. exact Hz.
  - intros _ _ _.
    pose proof (length_window_at (Z.to_nat (window self))
                  (map value (sort_values df))
                  (reading_position (length df))) as Hwin.
    pose proof (length_window_at_window (Z.to_nat (window self))
                  (map value (sort_values df))
                  (reading_position (length df))) as Hwin'.
    unfold reading_position in *.
    destruct (1 <? length df) eqn:E.
    + apply Nat.ltb_lt in E. split; lia.
    + apply Nat.ltb_ge in E. split; lia.
Qed.

Lemma alert_above_normal_needs_full_window_witness :
  let self := detector_on sample_db 2 in
  exists a,
    check_of sqrt_approx self DailyTpv = Ok a /\
    severity a = CRITICAL /\
    (2 <= window self)%Z /\
    (window self + 1
     <= Z.of_nat (length sample_tpv))%Z.
Proof.
  intro self. eexists.
  split; [vm_compute; reflexivity |].
  split; [reflexivity |].
  refine (proj2 (alert_above_normal_needs_full_window sqrt_approx self
                   DailyTpv (df := sample_tpv) eq_refl _) _ _ _).
  - vm_compute. reflexivity.
  - intro H. vm_compute in H. apply H. reflexivity.
  - intro H. vm_compute in H. apply H. reflexivity.
  - simpl. discriminate.
Defined.

(** ** The window that a check reads *)

Lemma sort_by_sorted_id {A : Type} (key : A -> Z) (l : list A) :
  Sorted (fun a b => (key a <= key b)%Z) l -> sort_by key l = l.
Proof.
  induction 1 as [| x rest Hrest IH Hhd]; simpl.
  - reflexivity.
  - rewrite IH. destruct Hhd as [| y rest' Hxy]; simpl.
    + reflexivity.
    + apply Z.leb_le in Hxy. rewrite Hxy. reflexivity.
Qed.

Lemma sort_values_chronological (df : DataFrame) :
  chronological df -> sort_values df = df.
Proof. apply sort_by_sorted_id. Qed.

Lemma window_at_before_last (w : nat) (xs : list float) (v : float) :
  xs <> [] ->
  window_at w (xs ++ [v]) (length xs - 1) = window_at w xs (length xs - 1).
Proof.
  intro Hne. unfold window_at. f_equal.
  destruct xs as [| x rest]; [congruence |].
  replace (length (x :: rest) - 1 + 1) with (length (x :: rest) + 0)
    by (simpl; lia).
  rewrite firstn_app_2. rewrite Nat.add_0_r, firstn_all.
  apply app_nil_r.
Qed.

Lemma reading_position_app (df : DataFrame) (r : Row) :
  df <> [] -> reading_position (length (df ++ [r])) = length df - 1.
Proof.
  intro H. unfold reading_position. rewrite length_app. simpl.
  destruct df as [| x rest]; [congruence |]. simpl length.
  replace (1 <? S (length rest) + 1) with true
    by (symmetry; apply Nat.ltb_lt; lia).
  lia.
Qed.

Lemma window_read_app (w : nat) (df : DataFrame) (r : Row) :
  df <> [] -> chronological (df ++ [r]) ->
  window_at w (map value (sort_values (df ++ [r])))
    (reading_position (length (df ++ [r])))
  = window_at w (map value df) (length df - 1).
Proof.
  intros Hne Hs.
  rewrite (sort_values_chronological Hs), (reading_position_app r Hne).
  rewrite map_app. simpl map.
  rewrite <- (length_map value df). apply window_at_before_last.
  destruct df; [congruence | discriminate].
Qed.

(** The statistics that a check reads do not depend on the current value:
    two chronological series that differ in their last observation only
    give the same expected value and the same standard deviation, and so do
    the alerts of two detectors with the same window that fetch them. *)
Theorem expected_value_ignores_current
    (sqrt : Q -> Q) (self1 self2 : AnomalyDetector) (q1 q2 : Query)
    (df : DataFrame) (r1 r2 : Row) :
  window self1 = window self2 ->
  df <> [] ->
  chronological (df ++ [r1]) ->
  chronological (df ++ [r2]) ->
  expected_of self1 (df ++ [r1]) = expected_of self2 (df ++ [r2]) /\
  std_read_of sqrt self1 (df ++ [r1]) = std_read_of sqrt self2 (df ++ [r2]) /\
  (forall a1 a2,
      execute_query (db self1) q1 = Ok (df ++ [r1]) ->
      execute_query (db self2) q2 = Ok (df ++ [r2]) ->
      check_of sqrt self1 q1 = Ok a1 ->
      check_of sqrt self2 q2 = Ok a2 ->
      expected_value a1 = expected_value a2 /\
      current_value a1 = value r1 /\ current_value a2 = value r2).
Proof.
  intros Hw Hne Hs1 Hs2.
  assert (Hmean : expected_of self1 (df ++ [r1])
                  = expected_of self2 (df ++ [r2])).
  { unfold expected_of. rewrite Hw.
    rewrite (window_read_app _ r1 Hne Hs1), (window_read_app _ r2 Hne Hs2).
    reflexivity. }
  split; [exact Hmean |]. split.
  - unfold std_read_of. rewrite Hw.
    rewrite (window_read_app _ r1 Hne Hs1), (window_read_app _ r2 Hne Hs2).
    reflexivity.
  - intros a1 a2 Hq1 Hq2 Ha1 Ha2.
    destruct (check_of_Ok_inv sqrt self1 q1 Ha1)
      as (df1 & c1 & Hq1' & _ & _ & Hc1 & Hv1 & He1 & _).
    destruct (check_of_Ok_inv sqrt self2 q2 Ha2)
      as (df2 & c2 & Hq2' & _ & _ & Hc2 & Hv2 & He2 & _).
    rewrite Hq1 in Hq1'. injection Hq1' as <-.
    rewrite Hq2 in Hq2'. injection Hq2' as <-.
    split; [rewrite He1, He2; exact Hmean |].
    rewrite (sort_values_chronological Hs1) in Hc1.
    rewrite (sort_values_chronological Hs2) in Hc2.
    rewrite map_app, length_app in Hc1, Hc2. simpl in Hc1, Hc2.
    rewrite nth_error_app2 in Hc1, Hc2 by (rewrite length_map; lia).
    rewrite length_map in Hc1, Hc2.
    replace (length df + 1 - 1 - length df) with 0 in Hc1, Hc2 by lia.
    simpl in Hc1, Hc2. split; congruence.
Qed.

Lemma expected_value_ignores_current_witness :
  let self := detector_on sample_db 2 in
  let df := [ {| day := 1; value := Num 150 |};
              {| day := 2; value := Num 160 |} ] in
  let r1 := {| day := 3; value := Num 515 |} in
  let r2 := {| day := 3; value := Num 170 |} in
  df <> [] /\
  chronological (df ++ [r1]) /\
  chronological (df ++ [r2]) /\
  expected_of self (df ++ [r1]) = expected_of self (df ++ [r2]).
Proof.
  intros self df r1 r2.
  assert (Hne : df <> []) by discriminate.
  assert (H1 : chronological (df ++ [r1]))
    by (repeat (constructor; try (simpl; lia))).
  assert (H2 : chronological (df ++ [r2]))
    by (repeat (constructor; try (simpl; lia))).
  split; [exact Hne | split; [exact H1 | split; [exact H2 |]]].
  exact (proj1 (@expected_value_ignores_current sqrt_approx self self
                  DailyTpv DailyTpv df r1 r2 eq_refl Hne H1 H2)).
Defined.

Lemma observations_Num (qs : list Q) : observations (map Num qs) = qs.
Proof.
  induction qs as [| x rest IH]; simpl; [| rewrite IH]; reflexivity.
Qed.

Lemma window_at_Num (w : nat) (qs : list Q) (i : nat) :
  window_at w (map Num qs) i = map Num (skipn (i + 1 - w) (firstn (i + 1) qs)).
Proof.
  unfold window_at. rewrite firstn_map, skipn_map. reflexivity.
Qed.

Lemma full_window_statistics
    (sqrt : Q -> Q) (self : AnomalyDetector) (df : DataFrame) (qs : list Q) :
  chronological df ->
  map value df = map Num qs ->
  (1 <= window self)%Z ->
  (window self + 1 <= Z.of_nat (length df))%Z ->
  let w := Z.to_nat (window self) in
  let previous := skipn (length df - 1 - w) (firstn (length df - 1) qs) in
  length previous = w /\
  expected_of self df = Num (Qmean previous) /\
  ((2 <= window self)%Z ->
   std_read_of sqrt self df = Num (sqrt (Qvar previous))).
Proof.
  intros Hs Hv Hw Hn w previous.
  assert (Hlen : length qs = length df)
    by (rewrite <- (length_map Num qs), <- Hv; apply length_map).
  assert (Hprev : length previous = w).
  { unfold previous. rewrite length_skipn, length_firstn. lia. }
  assert (Hwin : window_at w (map value (sort_values df))
                   (reading_position (length df))
                 = map Num previous).
  { rewrite (sort_values_chronological Hs), Hv. unfold reading_position.
    replace (1 <? length df) with true
      by (symmetry; apply Nat.ltb_lt; lia).
    rewrite window_at_Num. unfold previous.
    replace (length df - 2 + 1) with (length df - 1) by lia.
    reflexivity. }
  split; [exact Hprev |]. split.
  - unfold expected_of. fold w. rewrite Hwin. unfold mean_of.
    rewrite observations_Num, Hprev.
    rewrite Nat.leb_refl.
    replace (0 <? w) with true by (symmetry; apply Nat.ltb_lt; lia).
    reflexivity.
  - intro Hw2. unfold std_read_of. fold w. rewrite Hwin. unfold std_of.
    rewrite observations_Num, Hprev.
    rewrite Nat.leb_refl.
    replace (1 <? w) with true by (symmetry; apply Nat.ltb_lt; lia).
    reflexivity.
Qed.

(** With a full window of numbers behind the current value, a check returns
    an alert whose current value is the last observation and whose expected
    value is the mean of the [window] observations that precede it; for a
    window of 2 or more its Z-score is the one that [_calculate_z_score]
    gives for that mean and the standard deviation of the same
    observations. *)
Theorem expected_value_is_mean_of_previous_window
    (sqrt : Q -> Q) (self : AnomalyDetector) (q : Query) (df : DataFrame)
    (qs : list Q) :
  execute_query (db self) q = Ok df ->
  chronological df ->
  map value df = map Num qs ->
  (1 <= window self)%Z ->
  (window self + 1 <= Z.of_nat (length df))%Z ->
  let w := Z.to_nat (window self) in
  let previous := skipn (length df - 1 - w) (firstn (length df - 1) qs) in
  length previous = w /\
  exists a,
    check_of sqrt self q = Ok a /\
    nth_error (map Num qs) (length df - 1) = Some (current_value a) /\
    expected_value a = Num (Qmean previous) /\
    ((2 <= window self)%Z ->
     _calculate_z_score self (current_value a) (Num (Qmean previous))
       (Num (sqrt (Qvar previous))) = Ok (z_score a)).
Proof.
  intros Hq Hs Hv Hw Hn w previous.
  destruct (@full_window_statistics sqrt self df qs Hs Hv Hw Hn)
    as (Hprev & Hmean & Hstd).
  fold w in Hprev, Hmean, Hstd. fold previous in Hprev, Hmean, Hstd.
  split; [exact Hprev |].
  assert (Hw0 : (0 <= window self)%Z) by lia.
  assert (Hne : df <> []) by (destruct df; [simpl in Hn; lia | discriminate]).
  destruct (check_of_total sqrt self q Hw0 Hq Hne) as [a Ha].
  exists a. split; [exact Ha |].
  destruct (check_of_Ok_inv sqrt self q Ha)
    as (df' & c & Hq' & _ & _ & Hc & Hcur & He & Hz & _).
  rewrite Hq in Hq'. injection Hq' as <-.
  rewrite (sort_values_chronological Hs), Hv in Hc.
  split; [rewrite Hcur; exact Hc |].
  split; [rewrite He; exact Hmean |].
  intro Hw2. rewrite Hcur, <- Hmean, <- (Hstd Hw2). exact Hz.
Qed.

Lemma expected_value_is_mean_of_previous_window_witness :
  let self := detector_on sample_db 2 in
  let df := sample_tpv in
  execute_query (db self) DailyTpv = Ok df /\
  chronological df /\
  map value df = map Num [150; 160; 515]%Q /\
  exists a,
    check_of sqrt_approx self DailyTpv = Ok a /\
    current_value a = Num 515 /\
    expected_value a = Num (Qmean [150; 160]%Q).
Proof.
  intros self df.
  assert (Hq : execute_query (db self) DailyTpv = Ok df) by reflexivity.
  assert (Hs : chronological df)
    by (repeat (constructor; try (simpl; lia))).
  assert (Hv : map value df = map Num [150; 160; 515]%Q) by reflexivity.
  assert (Hw : (1 <= window self)%Z) by (simpl; lia).
  assert (Hn : (window self + 1 <= Z.of_nat (length df))%Z) by (simpl; lia).
  split; [exact Hq | split; [exact Hs | split; [exact Hv |]]].
  destruct (proj2 (@expected_value_is_mean_of_previous_window
                     sqrt_approx self DailyTpv df [150; 160; 515]%Q
                     Hq Hs Hv Hw Hn))
    as (a & Ha & Hc & He & _).
  exists a. split; [exact Ha |].
  split; [simpl in Hc; congruence | exact He].
Defined.

(** ** A flat window *)

Lemma Qsum_repeat (c : Q) (n : nat) :
  (Qsum (repeat c n) == inject_Z (Z.of_nat n) * c)%Q.
Proof.
  induction n as [| n IH].
  - simpl. ring.
  - simpl repeat. simpl Qsum. rewrite IH, Nat2Z.inj_succ.
    unfold Z.succ. rewrite inject_Z_plus. ring.
Qed.

Lemma Qmean_repeat (c : Q) (n : nat) :
  0 < n -> (Qmean (repeat c n) == c)%Q.
Proof.
  intro Hn. unfold Qmean. rewrite Qsum_repeat, repeat_length.
  field. intro H. unfold Qeq in H. simpl in H. lia.
Qed.

Lemma Qsum_zero (f : Q -> Q) (l : list Q) :
  (forall x, In x l -> f x == 0)%Q -> (Qsum (map f l) == 0)%Q.
Proof.
  induction l as [| x rest IH]; simpl; intro H.
  - reflexivity.
  - rewrite (H x (or_introl eq_refl)), IH; [ring |].
    intros y Hy. apply H. right. exact Hy.
Qed.

Lemma Qvar_repeat (c : Q) (n : nat) :
  0 < n -> (Qvar (repeat c n) == 0)%Q.
Proof.
  intro Hn. unfold Qvar.
  rewrite Qsum_zero.
  - unfold Qdiv. ring.
  - intros x Hx. apply repeat_spec in Hx. subst x.
    rewrite (Qmean_repeat c Hn). ring.
Qed.

Lemma change_pct_of_numbers (v m c : Q) :
  (m == c)%Q -> ~ (c == 0)%Q ->
  exists p,
    change_pct_of (Num v) (Num m) = Ok (Num p) /\
    (p == (v - c) / c * 100)%Q.
Proof.
  intros Hm Hc. unfold change_pct_of, truthy, fdiv. simpl.
  destruct (Qeq_bool m 0) eqn:E.
  - apply Qeq_bool_iff in E. exfalso. apply Hc. rewrite <- Hm. exact E.
  - simpl. eexists. split; [reflexivity |]. rewrite Hm. reflexivity.
Qed.

(** When the [window] observations before the current one are all equal,
    their standard deviation is zero and the check sets the Z-score to 0:
    whatever the current value, the alert is NORMAL, while its change is
    the full relative difference (a square root that sends zero to zero,
    thresholds above zero). *)
Theorem flat_window_hides_any_change
    (sqrt : Q -> Q) (self : AnomalyDetector) (q : Query) (df : DataFrame)
    (older : list Q) (c v : Q) :
  (forall x, x == 0 -> sqrt x == 0)%Q ->
  execute_query (db self) q = Ok df ->
  chronological df ->
  (2 <= window self)%Z ->
  map value df
  = map Num (older ++ repeat c (Z.to_nat (window self)) ++ [v]) ->
  above_zero (warning_threshold self) ->
  above_zero (critical_threshold self) ->
  exists a,
    check_of sqrt self q = Ok a /\
    current_value a = Num v /\
    feq (expected_value a) (Num c) /\
    z_score a = Num 0 /\
    severity a = NORMAL /\
    (~ (c == 0)%Q -> feq (change_pct a) (Num ((v - c) / c * 100))).
Proof.
  intros Hsqrt Hq Hs Hw Hv Hwarn Hcrit.
  set (w := Z.to_nat (window self)) in *.
  set (qs := older ++ repeat c w ++ [v]) in *.
  assert (Hlen : length df = length older + w + 1).
  { rewrite <- (length_map value df), Hv, length_map. unfold qs.
    rewrite !length_app, repeat_length. simpl. lia. }
  assert (Hprev : skipn (length df - 1 - w) (firstn (length df - 1) qs)
                  = repeat c w).
  { unfold qs. rewrite Hlen.
    replace (length older + w + 1 - 1) with (length older + w) by lia.
    replace (length older + w - w) with (length older) by lia.
    rewrite firstn_app_2.
    replace w with (length (repeat c w) + 0) at 1
      by (rewrite repeat_length; lia).
    rewrite firstn_app_2. simpl firstn. rewrite app_nil_r.
    rewrite skipn_app, skipn_all, Nat.sub_diag. reflexivity. }
  destruct (@full_window_statistics sqrt self df qs Hs Hv)
    as (_ & Hmean & Hstd); [lia | lia |].
  fold w in Hmean, Hstd. rewrite Hprev in Hmean, Hstd.
  specialize (Hstd Hw).
  assert (Hw0 : 0 < w) by (unfold w; lia).
  assert (Hne : df <> [])
    by (destruct df; [simpl in Hlen; lia | discriminate]).
  assert (Hw' : (0 <= window self)%Z) by lia.
  destruct (evaluate_nonempty sqrt self Hw' Hne) as (current & Hcur & He).
  assert (Hcurrent : current = Num v).
  { rewrite (sort_values_chronological Hs), Hv in Hcur.
    unfold qs in Hcur. rewrite Hlen in Hcur.
    rewrite app_assoc, map_app in Hcur.
    rewrite nth_error_app2 in Hcur
      by (rewrite length_map, length_app, repeat_length; lia).
    rewrite length_map, length_app, repeat_length in Hcur.
    replace (length older + w + 1 - 1 - (length older + w)) with 0
      in Hcur by lia.
    simpl in Hcur. congruence. }
  subst current.
  assert (Hz : _calculate_z_score self (Num v) (expected_of self df)
                 (std_read_of sqrt self df) = Ok (Num 0)).
  { unfold _calculate_z_score. rewrite Hstd.
    replace (is_zero (Num (sqrt (Qvar (repeat c w))))) with true;
      [reflexivity |].
    symmetry. apply is_zero_Num. apply Hsqrt. apply Qvar_repeat. exact Hw0. }
  rewrite Hz in He. simpl in He.
  rewrite Hmean in He.
  destruct (change_pct_of_total (Num v) (Num (Qmean (repeat c w))))
    as [p Hp].
  rewrite Hp in He. simpl in He.
  exists (alert_of self q (Num v, Num (Qmean (repeat c w)), Num 0, p)).
  destruct (alert_of_fields self q (Num v) (Num (Qmean (repeat c w)))
              (Num 0) p) as (Hc1 & He1 & Hz1 & Hp1 & Hs1).
  split; [rewrite check_of_evaluate, Hq; simpl; rewrite He; reflexivity |].
  split; [exact Hc1 |].
  split; [rewrite He1; simpl; apply Qmean_repeat; exact Hw0 |].
  split; [exact Hz1 |].
  split; [rewrite Hs1; apply severity_of_zero; assumption |].
  intro Hc. rewrite Hp1.
  destruct (@change_pct_of_numbers v (Qmean (repeat c w)) c
              (Qmean_repeat c Hw0) Hc) as (p' & Hp' & Heq).
  rewrite Hp' in Hp. injection Hp as <-. exact Heq.
Qed.

Lemma sqrt_approx_zero (x : Q) : (x == 0 -> sqrt_approx x == 0)%Q.
Proof.
  intro H. unfold sqrt_approx.
  assert (Hn : Qnum x = 0%Z).
  { unfold Qeq in H. simpl in H. lia. }
  rewrite Hn. reflexivity.
Qed.

Lemma flat_window_hides_any_change_witness :
  let self := detector_on flat_db 2 in
  let df := flat_tpv in
  chronological df /\
  map value df = map Num ([] ++ repeat 100%Q 2 ++ [400%Q]) /\
  exists a,
    check_of sqrt_approx self DailyTpv = Ok a /\
    current_value a = Num 400 /\
    feq (expected_value a) (Num 100) /\
    z_score a = Num 0 /\
    severity a = NORMAL /\
    (~ (100 == 0)%Q -> feq (change_pct a) (Num ((400 - 100) / 100 * 100))).
Proof.
  intros self df.
  assert (Hs : chronological df)
    by (repeat (constructor; try (simpl; lia))).
  assert (Hv : map value df = map Num ([] ++ repeat 100%Q 2 ++ [400%Q]))
    by reflexivity.
  split; [exact Hs | split; [exact Hv |]].
  refine (@flat_window_hides_any_change sqrt_approx self DailyTpv df []
            100%Q 400%Q sqrt_approx_zero eq_refl Hs _ Hv _ _).
  - simpl. lia.
  - intro H. vm_compute in H. apply H. reflexivity.
  - intro H. vm_compute in H. apply H. reflexivity.
Defined.

(** ** The display list and the sidebar *)

Lemma get_alerts_for_display_eq (sqrt : Q -> Q) (self : AnomalyDetector) :
  get_alerts_for_display sqrt self
  = (results <- run_all_checks sqrt self ;;
     Ok (sort_by severity_rank (map to_display (all_alerts results)))).
Proof.
  unfold get_alerts_for_display.
  destruct (run_all_checks sqrt self) as [res | e]; simpl; [| reflexivity].
  apply (sort_with_key_display (all_alerts res)).
Qed.

(** [get_alerts_for_display] raises exactly when [run_all_checks] does, and
    then the same exception: the sort never misses a key.  Otherwise it
    returns one record per alert, each the display form of an alert of the
    results, whose severity name, icon and color belong together. *)
Theorem display_list_reflects_results
    (sqrt : Q -> Q) (self : AnomalyDetector) :
  (forall e,
      run_all_checks sqrt self = Err e <->
      get_alerts_for_display sqrt self = Err e) /\
  (forall res,
      run_all_checks sqrt self = Ok res ->
      exists out,
        get_alerts_for_display sqrt self = Ok out /\
        length out = 2 + length (by_product res) /\
        forall x,
          In x out ->
          (exists a, In a (all_alerts res) /\ x = to_display a) /\
          (display_severity x = "critical" /\ display_icon x = "[!!!]" /\
           display_color x = "red" \/
           display_severity x = "warning" /\ display_icon x = "[!]" /\
           display_color x = "orange" \/
           display_severity x = "normal" /\ display_icon x = "[OK]" /\
           display_color x = "green")).
Proof.
  rewrite get_alerts_for_display_eq. split.
  - intro e. destruct (run_all_checks sqrt self) as [res | e']; simpl;
      split; intro H; try discriminate; injection H as ->; reflexivity.
  - intros res ->. cbn [bind]. eexists. split; [reflexivity |]. split.
    + rewrite length_sort_by, length_map. reflexivity.
    + intros x Hx.
      apply (Permutation_in _ (sort_by_perm severity_rank _)) in Hx.
      apply in_map_iff in Hx as (a & <- & Ha).
      split; [exists a; split; [exact Ha | reflexivity] |].
      destruct a as [? ? ? ? ? [| |] ? ?]; simpl; tauto.
Qed.

Lemma display_list_reflects_results_witness :
  let self := detector_on sample_db 2 in
  exists res out,
    run_all_checks sqrt_approx self = Ok res /\
    get_alerts_for_display sqrt_approx self = Ok out /\
    length out = 2 + length (by_product res).
Proof.
  intro self. eexists.
  assert (H : forall res,
             run_all_checks sqrt_approx self = Ok res ->
             exists out,
               get_alerts_for_display sqrt_approx self = Ok out /\
               length out = 2 + length (by_product res)).
  { intros res Hres.
    destruct (proj2 (display_list_reflects_results sqrt_approx self) res Hres)
      as (out & Hout & Hlen & _).
    exists out. split; assumption. }
  refine ((fun Hrun => match H _ Hrun with
                       | ex_intro _ out (conj Hout Hlen) =>
                           ex_intro _ out (conj Hrun (conj Hout Hlen))
                       end) _).
  vm_compute. reflexivity.
Defined.

Lemma severity_name_rank (a : Alert) (s : AlertSeverity) :
  String.eqb (display_severity (to_display a)) (severity_value s)
  = (tier (severity a) =? tier s).
Proof.
  destruct a as [? ? ? ? ? [| |] ? ?], s; reflexivity.
Qed.

Lemma sidebar_count_display (s : AlertSeverity) (l : list Alert) :
  sidebar_count (severity_value s) (map to_display l) = count_severity s l.
Proof.
  unfold sidebar_count, count_severity.
  induction l as [| a rest IH]; [reflexivity |].
  cbn [map filter]. rewrite severity_name_rank.
  destruct (tier (severity a) =? tier s); cbn [length]; rewrite IH;
    reflexivity.
Qed.

Lemma sidebar_count_perm (name : string) (l l' : list DisplayAlert) :
  Permutation l l' -> sidebar_count name l = sidebar_count name l'.
Proof.
  unfold sidebar_count. induction 1 as [| x l l' _ IH | x y l | l l' l'' _ IH1 _ IH2];
    simpl.
  - reflexivity.
  - destruct (String.eqb (display_severity x) name); simpl; rewrite IH;
      reflexivity.
  - destruct (String.eqb (display_severity x) name),
      (String.eqb (display_severity y) name); reflexivity.
  - rewrite IH1. exact IH2.
Qed.

(** The three counts that the sidebar computes from the display list are
    the counts of the summary of [run_all_checks], and they add up to the
    number of records. *)
Theorem sidebar_counts_match_summary
    (sqrt : Q -> Q) (self : AnomalyDetector) (res : Results)
    (out : list DisplayAlert) :
  run_all_checks sqrt self = Ok res ->
  get_alerts_for_display sqrt self = Ok out ->
  sidebar_count "critical" out = critical (summary res) /\
  sidebar_count "warning" out = warning (summary res) /\
  sidebar_count "normal" out = normal (summary res) /\
  sidebar_count "critical" out + sidebar_count "warning" out
  + sidebar_count "normal" out = length out /\
  length out = total_alerts (summary res).
Proof.
  intros Hrun Hout.
  rewrite get_alerts_for_display_eq, Hrun in Hout. cbn [bind] in Hout.
  assert (E : sort_by severity_rank (map to_display (all_alerts res)) = out)
    by (injection Hout; auto).
  clear Hout. subst out.
  destruct (summary_counts sqrt self Hrun) as (Ht & Hc & Hw & Hn & Hsum).
  assert (Hcount : forall s,
             sidebar_count (severity_value s)
               (sort_by severity_rank (map to_display (all_alerts res)))
             = count_severity s (all_alerts res)).
  { intro s.
    rewrite (sidebar_count_perm _ (sort_by_perm severity_rank _)).
    apply sidebar_count_display. }
  pose proof (Hcount CRITICAL) as H1.
  pose proof (Hcount WARNING) as H2.
  pose proof (Hcount NORMAL) as H3.
  simpl severity_value in H1, H2, H3.
  assert (Hlen : length (sort_by severity_rank
                           (map to_display (all_alerts res)))
                 = total_alerts (summary res)).
  { rewrite length_sort_by, length_map, Ht. reflexivity. }
  rewrite H1, H2, H3, Hlen, <- Hc, <- Hw, <- Hn.
  repeat split; try reflexivity. exact Hsum.
Qed.

Lemma sidebar_counts_match_summary_witness :
  let self := detector_on sample_db 2 in
  exists res out,
    run_all_checks sqrt_approx self = Ok res /\
    get_alerts_for_display sqrt_approx self = Ok out /\
    sidebar_count "critical" out = critical (summary res).
Proof.
  intro self.
  destruct (run_all_checks sqrt_approx self) as [res | e] eqn:Hrun;
    [| vm_compute in Hrun; discriminate].
  destruct (get_alerts_for_display sqrt_approx self) as [out | e] eqn:Hout;
    [| vm_compute in Hout; discriminate].
  exists res, out.
  split; [reflexivity | split; [reflexivity |]].
  exact (proj1 (sidebar_counts_match_summary sqrt_approx self Hrun Hout)).
Defined.




Lemma severity_rank_to_display (a : Alert) :
  severity_rank (to_display a) = (2 - Z.of_nat (tier (severity a)))%Z.
Proof. destruct a as [? ? ? ? ? [| |] ? ?]; reflexivity. Qed.






(** ** The default detector and short histories *)

Lemma short_frame_alert (sqrt : Q -> Q) (self : AnomalyDetector) (q : Query)
    (df : DataFrame) :
  execute_query (db self) q = Ok df ->
  df <> [] ->
  (Z.of_nat (length df) <= window self)%Z ->
  above_zero (warning_threshold self) ->
  above_zero (critical_threshold self) ->
  exists a,
    check_of sqrt self q = Ok a /\ z_score a = Num 0 /\ severity a = NORMAL.
Proof.
  intros Hq Hne Hlen Hwarn Hcrit.
  assert (Hpos : 0 < length df)
    by (destruct df; [congruence | simpl; lia]).
  assert (Hstd : std_read_of sqrt self df = NaN).
  { unfold std_read_of. apply std_of_short.
    pose proof (length_window_at (Z.to_nat (window self))
                  (map value (sort_values df))
                  (reading_position (length df))) as Hwin.
    unfold reading_position in *.
    destruct (1 <? length df) eqn:E.
    - apply Nat.ltb_lt in E. left. lia.
    - apply Nat.ltb_ge in E. right. lia. }
  assert (Hw : (0 <= window self)%Z) by lia.
  destruct (evaluate_undefined_std sqrt self Hw Hne Hstd)
    as (current & change & _ & _ & He).
  exists (alert_of self q (current, expected_of self df, Num 0, change)).
  destruct (alert_of_fields self q current (expected_of self df) (Num 0)
              change) as (_ & _ & Hz & _ & Hs).
  split; [rewrite check_of_evaluate, Hq; simpl; rewrite He; reflexivity |].
  split; [exact Hz |].
  rewrite Hs. apply severity_of_zero; assumption.
Qed.

Lemma sort_by_constant {A : Type} (key : A -> Z) (k : Z) (l : list A) :
  (forall x, In x l -> key x = k) -> sort_by key l = l.
Proof.
  intro H. apply sort_by_sorted_id.
  induction l as [| x rest IH]; constructor.
  - apply IH. intros y Hy. apply H. right. exact Hy.
  - destruct rest as [| y rest']; constructor.
    rewrite (H x), (H y); simpl; auto. lia.
Qed.

Lemma Forall2_In_r {A B : Type} (R : A -> B -> Prop) (l : list A)
    (l' : list B) (b : B) :
  Forall2 R l l' -> In b l' -> exists a, In a l /\ R a b.
Proof.
  induction 1 as [| x y l l' Hxy _ IH]; intro Hb.
  - destruct Hb.
  - destruct Hb as [<- | Hb].
    + exists x. split; [left; reflexivity | exact Hxy].
    + destruct (IH Hb) as (a & Ha & HR). exists a. split; [right |]; auto.
Qed.

(** [check_anomalies] uses the window of 30 and the thresholds 2.0 and 3.0:
    when every fetch returns a frame of at least one and at most 30 rows, it
    returns one record per check, all of them "normal" with a Z-score of 0,
    in the order of evaluation (total TPV, total transactions, then the
    products listed), whatever the values of the frames are. *)
Theorem default_detector_is_silent_on_short_history
    (sqrt : Q -> Q) (d : Database) (products : list string) :
  get_unique_values d "product" = Ok products ->
  (forall q,
      q = DailyTpv \/ q = DailyTxns \/
      (exists p, In p products /\ q = DailyTpvOf p) ->
      exists df, execute_query d q = Ok df /\ df <> [] /\ length df <= 30) ->
  exists out,
    check_anomalies sqrt (Ok d) = Ok out /\
    (forall x,
        In x out ->
        display_severity x = "normal" /\ display_z_score x = Num 0 /\
        display_icon x = "[OK]" /\ display_color x = "green") /\
    map display_dimension out = "total" :: "total" :: products.
Proof.
  intros Hps Hframes.
  set (self := {| db := d; window := 30;
                  warning_threshold := Num 2;
                  critical_threshold := Num 3 |}).
  assert (Hquiet : forall q a,
             q = DailyTpv \/ q = DailyTxns \/
             (exists p, In p products /\ q = DailyTpvOf p) ->
             check_of sqrt self q = Ok a ->
             z_score a = Num 0 /\ severity a = NORMAL).
  { intros q a Hq Ha.
    destruct (Hframes q Hq) as (df & Hdf & Hne & Hlen).
    destruct (@short_frame_alert sqrt self q df) as (a' & Ha' & Hz & Hs).
    - exact Hdf.
    - exact Hne.
    - simpl window. lia.
    - intro H. vm_compute in H. apply H. reflexivity.
    - intro H. vm_compute in H. apply H. reflexivity.
    - rewrite Ha in Ha'. injection Ha' as <-. split; assumption. }
  destruct (@run_all_checks_total sqrt self products) as (res & Hres & Hdim).
  { simpl. lia. }
  { intros q Hq. destruct (Hframes q Hq) as (df & Hdf & Hne & _).
    exists df. split; assumption. }
  { exact Hps. }
  pose proof (run_all_checks_Ok _ _ Hres) as (Htpv & Htxns & Hby & _).
  assert (Hall : forall a, In a (all_alerts res) ->
                           z_score a = Num 0 /\ severity a = NORMAL).
  { intros a [<- | [<- | Ha]].
    - apply (Hquiet DailyTpv); [auto | exact Htpv].
    - apply (Hquiet DailyTxns); [auto | exact Htxns].
    - unfold check_tpv_by_product in Hby. simpl db in Hby.
      rewrite Hps in Hby. cbn [bind] in Hby.
      apply mapM_Forall2 in Hby.
      destruct (@Forall2_In_r _ _ _ _ _ a Hby Ha) as (p & Hp & Hpa).
      apply (Hquiet (DailyTpvOf p)); [| exact Hpa].
      right. right. exists p. auto. }
  exists (map to_display (all_alerts res)).
  split; [| split].
  - unfold check_anomalies. simpl bind. fold self.
    rewrite get_alerts_for_display_eq, Hres. cbn [bind]. f_equal.
    apply (@sort_by_constant _ severity_rank 2%Z).
    intros x Hx. apply in_map_iff in Hx as (a & <- & Ha).
    rewrite severity_rank_to_display.
    destruct (Hall a Ha) as [_ ->]. reflexivity.
  - intros x Hx. apply in_map_iff in Hx as (a & <- & Ha).
    destruct (Hall a Ha) as [Hz Hs]. unfold to_display. simpl.
    rewrite Hs, Hz. repeat split.
  - unfold all_alerts. simpl map. rewrite map_map. simpl.
    assert (Hd1 : dimension (total_tpv res) = "total").
    { rewrite check_total_tpv_evaluate in Htpv.
      apply bind_Ok in Htpv as (df & _ & H).
      apply bind_Ok in H as ([[[? ?] ?] ?] & _ & H).
      injection H as <-. reflexivity. }
    assert (Hd2 : dimension (transactions res) = "total").
    { rewrite check_transactions_evaluate in Htxns.
      apply bind_Ok in Htxns as (df & _ & H).
      apply bind_Ok in H as ([[[? ?] ?] ?] & _ & H).
      injection H as <-. reflexivity. }
    rewrite Hd1, Hd2. f_equal. f_equal. exact Hdim.
Qed.

Lemma default_detector_is_silent_on_short_history_witness :
  get_unique_values sample_db "product" = Ok ["pix"; "pos"] /\
  exists out,
    check_anomalies sqrt_approx (Ok sample_db) = Ok out /\
    (forall x, In x out ->
               display_severity x = "normal" /\ display_z_score x = Num 0 /\
               display_icon x = "[OK]" /\ display_color x = "green") /\
    map display_dimension out = ["total"; "total"; "pix"; "pos"].
Proof.
  assert (Hps : get_unique_values sample_db "product" = Ok ["pix"; "pos"])
    by reflexivity.
  split; [exact Hps |].
  apply (@default_detector_is_silent_on_short_history sqrt_approx sample_db
           ["pix"; "pos"] Hps).
  intros q [-> | [-> | (p & [<- | [<- | []]] & ->)]];
    eexists; (split; [reflexivity | split; [discriminate | simpl; lia]]).
Defined.

(** ** The database object *)

Section Connections.
Variable Table : Type.
Variable engine : Table -> Database.
Variable to_sql :
  Db.IfExists -> option Table -> Table -> option Table * option exn.
Variable len : Table -> nat.

Let tidy (s : Db.State Table) : Prop :=
  Db.live_connections s
  = match Db._connection s with Some h => [h] | None => [] end.

Lemma connect_twice (s : Db.State Table) :
  Db.connect (fst (Db.connect s)) = (fst (Db.connect s), snd (Db.connect s)).
Proof.
  unfold Db.connect. destruct (Db._connection s) as [h |] eqn:E; simpl.
  - rewrite E. reflexivity.
  - reflexivity.
Qed.

Lemma remove_single (h : nat) : remove Nat.eq_dec h [h] = [].
Proof.
  simpl. destruct (Nat.eq_dec h h) as [_ | H]; [reflexivity | congruence].
Qed.

Lemma connect_tidy (s : Db.State Table) : tidy s -> tidy (fst (Db.connect s)).
Proof.
  unfold tidy, Db.connect. intro H.
  destruct (Db._connection s) as [h |] eqn:E; simpl.
  - rewrite E. exact H.
  - rewrite H. reflexivity.
Qed.

Lemma close_tidy (s : Db.State Table) : tidy s -> tidy (Db.close s).
Proof.
  unfold tidy, Db.close. intro H.
  destruct (Db._connection s) as [h |] eqn:E; simpl.
  - rewrite H. apply remove_single.
  - rewrite E. exact H.
Qed.

Lemma step_tidy (s : Db.State Table) (c : Db.Call Table) :
  tidy s -> tidy (Db.step engine to_sql len s c).
Proof.
  intro H. destruct c as [| | csv mode | q | column]; simpl.
  - apply connect_tidy. exact H.
  - apply close_tidy. exact H.
  - unfold Db.load_csv_to_db. destruct csv as [df | e]; [| exact H].
    pose proof (connect_tidy H) as H'.
    destruct (Db.connect s) as [s1 conn]. simpl in H'.
    destruct (to_sql mode (Db.stored s1) df) as [file [e |]]; exact H'.
  - unfold Db.execute_query.
    pose proof (connect_tidy H) as H'.
    destruct (Db.connect s) as [s1 conn]. simpl in H'.
    destruct (Db.stored s1); exact H'.
  - unfold Db.get_unique_values.
    pose proof (connect_tidy H) as H'.
    destruct (Db.connect s) as [s1 conn]. simpl in H'.
    destruct (Db.stored s1); exact H'.
Qed.

Lemma run_tidy (calls : list (Db.Call Table)) :
  forall s, tidy s -> tidy (Db.run engine to_sql len calls s).
Proof.
  unfold Db.run. induction calls as [| c rest IH]; intros s H; simpl.
  - exact H.
  - apply IH. apply step_tidy. exact H.
Qed.

(** Whatever calls are made on a database object, it never holds more than
    one open connection, and the open one is the cached one: [connect]
    opens a connection only when none is cached and returns the same one
    until [close]; [close] leaves no connection open, and closing twice is
    closing once. *)
Theorem connection_is_reused_and_never_leaked
    (file : option Table) (calls : list (Db.Call Table)) :
  let s := Db.run engine to_sql len calls (Db.new file) in
  Db.live_connections s
  = match Db._connection s with Some h => [h] | None => [] end /\
  length (Db.live_connections s) <= 1 /\
  Db.connect (fst (Db.connect s)) = (fst (Db.connect s), snd (Db.connect s)) /\
  Db.live_connections (fst (Db.connect s)) = [snd (Db.connect s)] /\
  Db.live_connections (Db.close s) = [] /\
  Db.close (Db.close s) = Db.close s.
Proof.
  intro s.
  assert (H : tidy s) by (apply run_tidy; reflexivity).
  split; [exact H |].
  split; [rewrite H; destruct (Db._connection s); simpl; lia |].
  split; [apply connect_twice |].
  split.
  - pose proof (connect_tidy H) as H'. unfold tidy in H'. rewrite H'.
    unfold Db.connect. destruct (Db._connection s) as [h |] eqn:E; simpl.
    + rewrite E. reflexivity.
    + reflexivity.
  - pose proof (close_tidy H) as H'. unfold tidy in H'.
    assert (Hnone : Db._connection (Db.close s) = None)
      by (unfold Db.close; destruct (Db._connection s) eqn:E; simpl; auto).
    split.
    + rewrite H', Hnone. reflexivity.
    + unfold Db.close at 1. rewrite Hnone. reflexivity.
Qed.
End Connections.

(** ** Abbreviated amounts *)

Lemma round_half_even_nearest (q : Q) (k : Z) :
  (inject_Z k - (1 # 2) < q)%Q -> (q < inject_Z k + (1 # 2))%Q ->
  round_half_even q = k.
Proof.
  destruct q as [n d]. unfold Qlt. simpl. intros H1 H2.
  unfold round_half_even. cbn [Qnum Qden].
  pose proof (Z.div_mod n (Zpos d)) as Hdm.
  pose proof (Z.mod_pos_bound n (Zpos d)) as Hb.
  assert (Hd : (0 < Zpos d)%Z) by lia.
  specialize (Hb Hd). specialize (Hdm ltac:(lia)).
  generalize dependent (n / Zpos d)%Z. intro a.
  generalize dependent (n mod Zpos d)%Z. intros r Hb Hdm.
  generalize dependent (Zpos d). intros D H1 H2 Hd Hb Hdm. subst n.
  destruct (Z.compare_spec (2 * r) D) as [C | C | C].
  - exfalso.
    assert ((k * 2 + -1 < 2 * a + 1)%Z)
      by (apply (Z.mul_lt_mono_pos_r D); [exact Hd | lia]).
    assert ((2 * a + 1 < k * 2 + 1)%Z)
      by (apply (Z.mul_lt_mono_pos_r D); [exact Hd | lia]).
    lia.
  - assert ((k * 2 + -1 < 2 * a + 1)%Z)
      by (apply (Z.mul_lt_mono_pos_r D); [exact Hd | lia]).
    assert ((2 * a < k * 2 + 1)%Z)
      by (apply (Z.mul_lt_mono_pos_r D); [exact Hd | lia]).
    lia.
  - assert ((2 * a + 1 < k * 2 + 1)%Z)
      by (apply (Z.mul_lt_mono_pos_r D); [exact Hd | lia]).
    assert ((k * 2 + -1 < 2 * a + 2)%Z)
      by (apply (Z.mul_lt_mono_pos_r D); [exact Hd | lia]).
    lia.
Qed.

Lemma Qle_bool_false (a b : Q) : (b < a)%Q -> Qle_bool a b = false.
Proof.
  intro H. destruct (Qle_bool a b) eqn:E; [| reflexivity].
  apply Qle_bool_iff in E. apply Qle_not_lt in E. contradiction.
Qed.

Lemma Qle_bool_true (a b : Q) : (a <= b)%Q -> Qle_bool a b = true.
Proof. apply Qle_bool_iff. Qed.

Arguments Qle_bool_false a b _ : clear implicits.
Arguments Qle_bool_true a b _ : clear implicits.

(** A positive amount that rounds to 1000.00 of a unit. *)
Lemma format_just_below_unit (x : Q) :
  (99999 + (1 # 2) < x * 100)%Q -> (x < 1000)%Q ->
  format_f false 2 (Num x) = "1000.00".
Proof.
  intros H1 H2. unfold format_f.
  assert (Hpos : (0 <= x)%Q) by lra.
  assert (Hround : round_half_even (Qabs x * inject_Z (10 ^ Z.of_nat 2))
                   = 100000%Z).
  { apply round_half_even_nearest.
    - rewrite (Qabs_pos x Hpos).
      change (inject_Z (10 ^ Z.of_nat 2)) with 100%Q.
      change (inject_Z 100000) with 100000%Q. lra.
    - rewrite (Qabs_pos x Hpos).
      change (inject_Z (10 ^ Z.of_nat 2)) with 100%Q.
      change (inject_Z 100000) with 100000%Q. lra. }
  rewrite Hround, (Qle_bool_true 0 x Hpos). reflexivity.
Qed.

Arguments format_just_below_unit x _ _ : clear implicits.

(** The unit of an abbreviated amount is chosen before the amount is
    rounded: every amount strictly between 999,995 and 1,000,000 is shown as
    "1000.00K", and strictly between 999,995,000 and 1,000,000,000 as
    "1000.00M".  From 1,000 on, [format_currency] is [format_number]
    behind "R$ "; below 1,000, negative amounts included, nothing is
    abbreviated; NaN is shown as "nan". *)
Theorem abbreviation_picks_unit_before_rounding (v : Q) :
  ((999995 < v)%Q -> (v < 1000000)%Q ->
   format_currency (Num v) = Ok "R$ 1000.00K" /\
   format_number (Num v) = Ok "1000.00K") /\
  ((999995000 < v)%Q -> (v < 1000000000)%Q ->
   format_currency (Num v) = Ok "R$ 1000.00M" /\
   format_number (Num v) = Ok "1000.00M") /\
  ((1000 <= v)%Q ->
   format_currency (Num v)
   = (s <- format_number (Num v) ;; Ok ("R$ " +++ s))) /\
  ((v < 1000)%Q ->
   format_currency (Num v) = Ok ("R$ " +++ format_f false 2 (Num v)) /\
   format_number (Num v) = Ok (format_f false 0 (Num v))) /\
  format_currency NaN = Ok "R$ nan" /\
  format_number NaN = Ok "nan".
Proof.
  split; [| split; [| split; [| split; [| split]]]].
  - intros H1 H2. unfold format_currency, format_number, fgeb, fdiv.
    rewrite (Qle_bool_false 1000000000 v) by lra.
    rewrite (Qle_bool_false 1000000 v) by lra.
    rewrite (Qle_bool_true 1000 v) by lra.
    cbn [is_zero]. change (Qeq_bool 1000 0) with false. cbn [bind].
    rewrite (format_just_below_unit (v / 1000)%Q); [split; reflexivity | |].
    + unfold Qdiv. change (/ 1000)%Q with (1 # 1000)%Q. lra.
    + unfold Qdiv. change (/ 1000)%Q with (1 # 1000)%Q. lra.
  - intros H1 H2. unfold format_currency, format_number, fgeb, fdiv.
    rewrite (Qle_bool_false 1000000000 v) by lra.
    rewrite (Qle_bool_true 1000000 v) by lra.
    cbn [is_zero]. change (Qeq_bool 1000000 0) with false. cbn [bind].
    rewrite (format_just_below_unit (v / 1000000)%Q); [split; reflexivity | |].
    + unfold Qdiv. change (/ 1000000)%Q with (1 # 1000000)%Q. lra.
    + unfold Qdiv. change (/ 1000000)%Q with (1 # 1000000)%Q. lra.
  - intro H. unfold format_currency, format_number, fgeb, fdiv.
    cbn [is_zero].
    change (Qeq_bool 1000000000 0) with false.
    change (Qeq_bool 1000000 0) with false.
    change (Qeq_bool 1000 0) with false.
    destruct (Qle_bool 1000000000 v); [reflexivity |].
    destruct (Qle_bool 1000000 v); [reflexivity |].
    rewrite (Qle_bool_true 1000 v H). reflexivity.
  - intro H. unfold format_currency, format_number, fgeb.
    rewrite (Qle_bool_false 1000000000 v) by lra.
    rewrite (Qle_bool_false 1000000 v) by lra.
    rewrite (Qle_bool_false 1000 v) by lra.
    split; reflexivity.
  - reflexivity.
  - reflexivity.
Qed.

Lemma abbreviation_picks_unit_before_rounding_witness :
  (999995 < 99999999 # 100)%Q /\
  (99999999 # 100 < 1000000)%Q /\
  format_currency (Num (99999999 # 100)) = Ok "R$ 1000.00K" /\
  format_number (Num (99999999 # 100)) = Ok "1000.00K".
Proof.
  assert (H1 : (999995 < 99999999 # 100)%Q) by reflexivity.
  assert (H2 : (99999999 # 100 < 1000000)%Q) by reflexivity.
  split; [exact H1 | split; [exact H2 |]].
  exact (proj1 (abbreviation_picks_unit_before_rounding (99999999 # 100))
           H1 H2).
Defined.

(** ** Thresholds that are not in order *)

(** The thresholds are not validated, and the critical one is tested
    first: when the warning threshold is not below the critical one, no
    Z-score is ever classified WARNING; and when the critical threshold is
    zero or negative, every Z-score that is a number is CRITICAL, zero
    included. *)
Theorem unordered_thresholds_lose_the_warning_tier
    (self : AnomalyDetector) (z : float) :
  (fge (warning_threshold self) (critical_threshold self) ->
   _get_severity self z <> WARNING) /\
  (fge (Num 0) (critical_threshold self) ->
   forall x, z = Num x -> _get_severity self z = CRITICAL).
Proof.
  split.
  - intros Hwc Hsev. unfold _get_severity in Hsev.
    destruct (fgeb (fabs z) (critical_threshold self)) eqn:C;
      [discriminate |].
    destruct (fgeb (fabs z) (warning_threshold self)) eqn:W;
      [| discriminate].
    apply fgeb_fge in W. apply fgeb_false in C. apply C.
    destruct z as [x |]; simpl in *; [| contradiction].
    destruct (warning_threshold self) as [w |]; [| contradiction].
    destruct (critical_threshold self) as [c |]; simpl in *;
      [| contradiction].
    apply Qle_trans with w; assumption.
  - intros Hc x ->. apply get_severity_cases.
    destruct (critical_threshold self) as [c |]; simpl in *;
      [| contradiction].
    apply Qle_trans with 0%Q; [exact Hc | apply Qabs_nonneg].
Qed.

Lemma unordered_thresholds_lose_the_warning_tier_witness :
  let self := {| db := sample_db; window := 30;
                 warning_threshold := Num 3;
                 critical_threshold := Num 2 |} in
  fge (warning_threshold self) (critical_threshold self) /\
  _get_severity self (Num (5 # 2)) <> WARNING.
Proof.
  intro self.
  assert (H : fge (warning_threshold self) (critical_threshold self))
    by (vm_compute; discriminate).
  split; [exact H |].
  exact (proj1 (unordered_thresholds_lose_the_warning_tier self
                  (Num (5 # 2))) H).
Defined.
